(** * Chunked tabular extraction: a model of [parsera.engine.chunks_extractor]

    The development embeds [ChunksTabularExtractor] (its constructor and the
    methods [extract], [merge_all_data] and [run]) together with the class
    attributes it inherits from [parsera.engine.simple_extractor].

    The chat model, the JSON output parser, the text splitter and the Python
    built-ins [json.dumps], [str.format] and [str] of a document are code of
    other packages: they are fields of a [Runtime] record, and every
    statement below holds for each runtime.  The effects of [run] (calls to
    the splitter and to the chat model, lines printed, the attribute
    [self.chunks_data]) are threaded through a [world]. *)

From Stdlib Require Import ZArith List String Ascii Bool Lia PrimFloat DecimalString.
Import ListNotations.
Open Scope string_scope.
Open Scope Z_scope.

#[local] Set Warnings "-register-all".

(** ** Python values *)

(** What [json.loads] can produce and [json.dumps] accepts.  [JNull] is
    Python's [None]; a [dict] keeps its insertion order. *)
Inductive json : Type :=
| JNull
| JBool (b : bool)
| JInt (n : Z)
| JFloat (x : float)
| JStr (s : string)
| JArr (items : list json)
| JObj (members : list (string * json)).

(** [bool(v)], as tested by [not previous_data]. *)
Definition truthy (v : json) : bool :=
  match v with
  | JNull => false
  | JBool b => b
  | JInt n => negb (n =? 0)
  | JFloat x => negb (PrimFloat.eqb x PrimFloat.zero)
  | JStr s => negb (String.eqb s "")
  | JArr items => match items with [] => false | _ :: _ => true end
  | JObj members => match members with [] => false | _ :: _ => true end
  end.

(** An exception: its class and its message. *)
Record exn : Type := Exception { exn_class : string; exn_msg : string }.

Definition ValueError (msg : string) : exn := Exception "ValueError" msg.
Definition TypeError (msg : string) : exn := Exception "TypeError" msg.
Definition IndexError (msg : string) : exn := Exception "IndexError" msg.
Definition AttributeError (msg : string) : exn := Exception "AttributeError" msg.
Definition ZeroDivisionError (msg : string) : exn := Exception "ZeroDivisionError" msg.
Definition ValidationError (msg : string) : exn := Exception "ValidationError" msg.

Inductive result (A : Type) : Type :=
| Ok (a : A)
| Raise (e : exn).
Arguments Ok {A} a.
Arguments Raise {A} e.

(** A [str] is held as its UTF-8 encoding.  A byte 10xxxxxx continues the
    character begun by the bytes before it. *)
Definition is_continuation (c : ascii) : bool :=
  let n := nat_of_ascii c in (128 <=? n)%nat && (n <? 192)%nat.

Definition starts_with_continuation (s : string) : bool :=
  match s with
  | EmptyString => false
  | String c _ => is_continuation c
  end.

(** The characters of a [str], each as a string of its own: a leading byte
    with the continuation bytes that follow it. *)
Fixpoint code_points (s : string) : list string :=
  match s with
  | EmptyString => []
  | String c rest =>
      match starts_with_continuation rest, code_points rest with
      | true, following :: others => String c following :: others
      | _, others => String c EmptyString :: others
      end
  end.

(** [list(v)]: a [str] yields its characters, a [dict] its keys, a number,
    a boolean or [None] is not iterable. *)
Definition py_list (v : json) : result (list json) :=
  match v with
  | JArr items => Ok items
  | JStr s => Ok (map JStr (code_points s))
  | JObj members => Ok (map (fun kv => JStr (fst kv)) members)
  | JNull => Raise (TypeError "'NoneType' object is not iterable")
  | JBool _ => Raise (TypeError "'bool' object is not iterable")
  | JInt _ => Raise (TypeError "'int' object is not iterable")
  | JFloat _ => Raise (TypeError "'float' object is not iterable")
  end.

(** [math.ceil(a / b)] on integers, [b] not zero.  Python divides in
    floating point; on lengths below 2^52 the result is the exact ceiling. *)
Definition ceil_div (a b : Z) : Z := - ((- a) / b).

(** The slice [l[start:]]. *)
Definition slice_from {A : Type} (start : Z) (l : list A) : list A :=
  let n := Z.of_nat (List.length l) in
  let i := if start <? 0 then Z.max 0 (n + start) else Z.min start n in
  skipn (Z.to_nat i) l.

(** [str(n)] of an integer. *)
Definition str_int (n : Z) : string := NilZero.string_of_int (Z.to_int n).

Definition nl : string := String "010"%char EmptyString.
Definition dquote : ascii := "034"%char.
Definition tilde : ascii := "126"%char.

(** The prompt constants below contain double quotes; they are written with
    a tilde in their place (no prompt contains a tilde) and [unq] puts the
    quotes back. *)
Fixpoint unq (s : string) : string :=
  match s with
  | EmptyString => EmptyString
  | String c rest => String (if Ascii.eqb c tilde then dquote else c) (unq rest)
  end.

(** ** Messages, documents, the splitter *)

Inductive message : Type :=
| SystemMessage (content : string)
| HumanMessage (content : string).

(** [SystemMessage(content)] when [content] may be [None]: the message
    classes validate their content. *)
Definition system_message (content : option string) : result message :=
  match content with
  | Some s => Ok (SystemMessage s)
  | None => Raise (ValidationError "1 validation error for SystemMessage")
  end.

Record Document : Type := { page_content : string }.

(** The arguments kept by [RecursiveCharacterTextSplitter]. *)
Record TextSplitter : Type := {
  chunk_size : Z;
  chunk_overlap : Z;
  length_function : string -> Z
}.

(** [dict[str, str]], in insertion order. *)
Definition attributes_t : Type := list (string * string).

Definition attributes_json (attributes : attributes_t) : json :=
  JObj (map (fun kv => (fst kv, JStr (snd kv))) attributes).

(** ** The world *)

Inductive event : Type :=
| CreateDocuments (texts : list string)
| Print (line : string)
| CallExtract (markdown : string) (previous_data : json)
| CallMerge (all_data : list json)
| Invoke (messages : list message).

(** [trace] is in chronological order; [chunks_data] is the attribute
    [self.chunks_data] of the one extractor under study. *)
Record world : Type := World {
  trace : list event;
  chunks_data : option (list json)
}.

Definition invocations (tr : list event) : list (list message) :=
  flat_map (fun e => match e with Invoke m => [m] | _ => [] end) tr.

Definition is_method_call (e : event) : bool :=
  match e with CallExtract _ _ | CallMerge _ => true | _ => false end.

Definition method_calls (tr : list event) : list event := filter is_method_call tr.

Definition is_merge (e : event) : bool :=
  match e with CallMerge _ => true | _ => false end.

(** The collaborators.  [ainvoke history messages] is the content of the
    model's answer to [messages] after the earlier requests [history]. *)
Record Runtime : Type := {
  ainvoke : list (list message) -> list message -> result string;
  parse : string -> result json;
  create_documents : TextSplitter -> list string -> result (list Document);
  json_dumps : json -> string;
  str_format : string -> list (string * string) -> result string;
  str_document : Document -> string;
  count_tokens : string -> Z
}.

(** ** A state and exception monad *)

Definition M (A : Type) : Type := world -> result A * world.

Definition ret {A : Type} (a : A) : M A := fun w => (Ok a, w).

Definition raise {A : Type} (e : exn) : M A := fun w => (Raise e, w).

Definition lift {A : Type} (r : result A) : M A := fun w => (r, w).

Definition bind {A B : Type} (m : M A) (k : A -> M B) : M B :=
  fun w =>
    match m w with
    | (Ok a, w') => k a w'
    | (Raise e, w') => (Raise e, w')
    end.

Notation "x <- m ;; k" := (bind m (fun x => k))
  (at level 61, m at next level, right associativity).
Notation "m ;; k" := (bind m (fun _ => k))
  (at level 61, right associativity).

Definition emit (e : event) : M unit :=
  fun w => (Ok tt, World (trace w ++ [e]) (chunks_data w)).

Definition set_chunks_data (v : option (list json)) : M unit :=
  fun w => (Ok tt, World (trace w) v).

Definition get_chunks_data : M (option (list json)) :=
  fun w => (Ok (chunks_data w), w).

(** ** Prompt constants

    The text of the module-level constants of [simple_extractor.py] and
    [chunks_extractor.py] that [ChunksTabularExtractor] refers to. *)

Definition SIMPLE_EXTRACTOR_PROMPT_TEMPLATE : string := unq "
Having following page content:
```
{markdown}
```

Return the following elements from the page content:
```
{elements}
```

Output json:
".

Definition TABULAR_EXTRACTOR_SYSTEM_PROMPT : string := unq "
Your goal is to find the elements from the webpage content and return them in json format.
For example if user asks:
Return the following elements from the page content:
```
{
    ~name~: ~name of the listing~,
    ~price~: ~price of the listing~
}
```
Make sure to return json with the list of corresponding values and their CSS selectors.
Output json:
```json
[
{
~name~: {~value~: ~name1~, ~selector~: ~#item-1 .name~},
~price~: {~value~: ~100~, ~selector~: ~#item-1 .price~}
},
{
~name~: {~value~: ~name2~, ~selector~: ~#item-2 .name~},
~price~: {~value~: ~150~, ~selector~: ~#item-2 .price~}
},
{
~name~: {~value~: ~name3~, ~selector~: ~#item-3 .name~},
~price~: {~value~: ~300~, ~selector~: ~#item-3 .price~}
}
]
```

If users asks for a single field:
Return the following elements from the page content:
```
{
    ~link~: ~link to the listing~,
}
```
Make sure to return json with only this field and its selector
Output json:
```json
[
   {~link~: {~value~: ~https://example.com/link1~, ~selector~: ~.item-1 a~}},
{~link~: {~value~: ~https://example.com/link2~, ~selector~: ~.item-2 a~}},
{~link~: {~value~: ~https://example.com/link3~, ~selector~: ~.item-3 a~}}
]
```

".

Definition SYSTEM_MERGE_PROMPT_TEMPLATE : string := unq "
Your goal is to merge data extracted from different parts of the page into one json.
Keep the original structure, but make sure to correctly merge data to not have duplicates, prefer rows with more data.

In case of conflicting values, take the data that is further from the boarder between the files.
## Example: merging conflicting values
```
[
    {~name~: ~zero element~, ~price~: ~123~},
    {~name~: ~first element~, ~price~: ~100~},
    {~name~: ~second element~, ~price~: ~200~},
    {~name~: ~third element~, ~price~: ~999~},
]
```

and 

```
[
    {~name~: ~second element~, ~price~: ~123~},
    {~name~: ~third element~, ~price~: ~400~},
]
```

In the case above the ~second element~'s price should be taken from the first json, cause it's further from the boarder
between the files, while ~third element~'s price should be taken from the second json. The final output should be:

Merged json:
```
[
    {~name~: ~zero element~, ~price~: ~123~},
    {~name~: ~first element~, ~price~: ~100~},
    {~name~: ~second element~, ~price~: ~200~},
    {~name~: ~third element~, ~price~: ~400~},
]
```

## Example: merging missing values
```
[
    {~name~: ~zero element~, ~price~: ~123~},
    {~name~: ~first element~, ~price~: ~100~},
    {~name~: ~second element~, ~price~: ~200~},
    {~name~: ~third~, ~price~: null},
]
```

and 

```
[
    {~name~: ~second element~, ~price~: ~123~},
    {~name~: ~third element~, ~price~: ~400~},
    {~name~: ~fourth element~, ~price~: ~350~},
]
```

In this case the ~third element~ should be taken from the second json, because it contains missing value for the ~price~
and fixed truncated name ~third~. The final output should be:

Merged json:
```
[
    {~name~: ~zero element~, ~price~: ~123~},
    {~name~: ~first element~, ~price~: ~100~},
    {~name~: ~second element~, ~price~: ~200~},
    {~name~: ~third element~, ~price~: ~400~},
    {~name~: ~fourth element~, ~price~: ~350~},
]
```

".

Definition EXTRACTOR_MERGE_PROMPT_TEMPLATE : string := unq "
Elements requested by user:
```
{elements}
```

All jsons from different parts of the page:
{jsons_list}

Merged json:
".

Definition APPEND_TABULAR_EXTRACTOR_SYSTEM_PROMPT : string := unq "
Your goal is to continue the sequence extracted from the previous chunk of the page by adding elements from the new page
chunk. For each extracted field, you must extract the EXACT CSS selector from the HTML content that was used to find that element.
DO NOT make up or guess selectors - only use what's present in the HTML.

Important rules for selectors:
1. Use the most specific and accurate selector from the actual HTML
2. Include all necessary parent elements to uniquely identify the element
3. If you can't find a specific selector in the HTML, use null or empty string
4. Include class names, IDs, and other attributes exactly as they appear in the HTML
5. Pay attention to the actual HTML structure in the content

## Example: continue truncated json with selectors
```json
[
    {
        ~name~: {
            ~value~: ~Product Name~,
            ~selector~: ~div.product__title > h1.product-single__title~
        },
        ~price~: {
            ~value~: ~25.00~,
            ~selector~: ~span.price-item.price-item--regular~
        },
        ~description~: {
            ~value~: ~Product description text~,
            ~selector~: ~div.product-single__description.rte~
        }
    }
]
```

Only extract selectors that you can verify in the provided HTML content.
If you cannot find a proper selector, use null rather than making one up.
".

Definition APPEND_EXTRACTOR_PROMPT_TEMPLATE : string := unq "
Fill missing values, fix truncated values and continue this sequence:
```
{previous_data}
```

The current truncated page chunk:
---
{markdown}
---

You are looking for the following elements from the truncated page chunk:
```
{elements}
```

For each element, also identify and return the CSS selector that can be used to locate it.
Output json with fixed previous sequence, new rows, and CSS selectors:
".

(** ** The class and its instances *)

(** The class attributes.  [Extractor.system_prompt] is [None] in the base
    class, so each prompt is optional. *)
Record ExtractorClass : Type := {
  system_prompt : option string;
  prompt_template : option string;
  system_merge_prompt : option string;
  prompt_merge_template : option string;
  append_system_prompt : option string;
  append_prompt_template : option string;
  overlap_factor : Z
}.

Definition ChunksTabularExtractor : ExtractorClass := {|
  system_prompt := Some TABULAR_EXTRACTOR_SYSTEM_PROMPT;
  prompt_template := Some SIMPLE_EXTRACTOR_PROMPT_TEMPLATE;
  system_merge_prompt := Some SYSTEM_MERGE_PROMPT_TEMPLATE;
  prompt_merge_template := Some EXTRACTOR_MERGE_PROMPT_TEMPLATE;
  append_system_prompt := Some APPEND_TABULAR_EXTRACTOR_SYSTEM_PROMPT;
  append_prompt_template := Some APPEND_EXTRACTOR_PROMPT_TEMPLATE;
  overlap_factor := 3
|}.

(** The instance attributes that never change after [__init__];
    [self.chunks_data] lives in the [world]. *)
Record Extractor : Type := {
  class_of : ExtractorClass;
  text_splitter : TextSplitter
}.

Section WithRuntime.

Variable rt : Runtime.

(** [template.format] with keyword arguments, on a class attribute that may
    be [None]. *)
Definition format (template : option string) (kwargs : list (string * string))
  : result string :=
  match template with
  | Some t => str_format rt t kwargs
  | None => Raise (AttributeError "'NoneType' object has no attribute 'format'")
  end.

(** The constructor of the library class [RecursiveCharacterTextSplitter],
    called with keyword arguments only: it checks the sizes, as the releases
    do that refuse a chunk size that is not positive, and keeps them. *)
Definition RecursiveCharacterTextSplitter (chunk_size chunk_overlap : Z)
    (length_function : string -> Z) : result TextSplitter :=
  if chunk_size <=? 0 then
    Raise (ValueError ("chunk_size must be > 0, got " ++ str_int chunk_size))
  else if chunk_overlap <? 0 then
    Raise (ValueError ("chunk_overlap must be >= 0, got " ++ str_int chunk_overlap))
  else if chunk_size <? chunk_overlap then
    Raise (ValueError ("Got a larger chunk overlap (" ++ str_int chunk_overlap
                       ++ ") than chunk size (" ++ str_int chunk_size
                       ++ "), should be smaller."))
  else
    Ok {| chunk_size := chunk_size;
          chunk_overlap := chunk_overlap;
          length_function := length_function |}.

(** [__init__]: the division comes first, then the constructor of the
    splitter; [chunks_data] starts as [None]. *)
Definition init (cls : ExtractorClass) (chunk_size : Z)
    (token_counter : option (string -> Z)) : result (Extractor * world) :=
  let token_counter :=
    match token_counter with
    | None => count_tokens rt
    | Some f => f
    end in
  if overlap_factor cls =? 0
  then Raise (ZeroDivisionError "integer division or modulo by zero")
  else
    match RecursiveCharacterTextSplitter chunk_size
            (chunk_size / overlap_factor cls) token_counter with
    | Raise e => Raise e
    | Ok splitter =>
        Ok ({| class_of := cls; text_splitter := splitter |}, World [] None)
    end.

(** *** [extract] *)

(** [cutoff = max(1, math.ceil(len(previous_data) / self.overlap_factor))]. *)
Definition cutoff (self : Extractor) (previous_data : list json) : result Z :=
  if overlap_factor (class_of self) =? 0
  then Raise (ZeroDivisionError "division by zero")
  else Ok (Z.max 1 (ceil_div (Z.of_nat (List.length previous_data))
                             (overlap_factor (class_of self)))).

(** The inner [if len(previous_data) > 0: ... else: ...]. *)
Definition previous_tail (self : Extractor) (previous_data : list json)
  : result string :=
  if 0 <? Z.of_nat (List.length previous_data) then
    match cutoff self previous_data with
    | Ok c => Ok (json_dumps rt (JArr (slice_from (- c) previous_data)))
    | Raise e => Raise e
    end
  else Ok "[]".

(** The list that [previous_data] is after the [isinstance] test: itself
    when it is a list, [list(previous_data)] otherwise. *)
Definition as_list (previous_data : json) : result (list json) :=
  match previous_data with
  | JArr items => Ok items
  | other => py_list other
  end.

Definition extract_human_msg (self : Extractor) (markdown : string)
    (attributes : attributes_t) (previous_data : json) : result string :=
  let elements := json_dumps rt (attributes_json attributes) in
  if negb (truthy previous_data) then
    format (prompt_template (class_of self))
           [("markdown", markdown); ("elements", elements)]
  else
    match as_list previous_data with
    | Raise e => Raise e
    | Ok previous_data =>
        match previous_tail self previous_data with
        | Raise e => Raise e
        | Ok previous_tail =>
            format (append_prompt_template (class_of self))
                   [("markdown", markdown); ("elements", elements);
                    ("previous_data", previous_tail)]
        end
    end.

Definition extract_messages (self : Extractor) (markdown : string)
    (attributes : attributes_t) (previous_data : json) : result (list message) :=
  match extract_human_msg self markdown attributes previous_data with
  | Raise e => Raise e
  | Ok human_msg =>
      match system_message (system_prompt (class_of self)) with
      | Raise e => Raise e
      | Ok sys => Ok [sys; HumanMessage human_msg]
      end
  end.

(** [await self.model.ainvoke(messages)], then [output.content]. *)
Definition invoke (messages : list message) : M string :=
  fun w =>
    (ainvoke rt (invocations (trace w)) messages,
     World (trace w ++ [Invoke messages]) (chunks_data w)).

Definition extract (self : Extractor) (markdown : string)
    (attributes : attributes_t) (previous_data : json) : M json :=
  emit (CallExtract markdown previous_data) ;;
  messages <- lift (extract_messages self markdown attributes previous_data) ;;
  output <- invoke messages ;;
  lift (parse rt output).

(** *** [merge_all_data] *)

Definition jsons_list (all_data : list json) : string :=
  fold_left (fun json_list data =>
               json_list ++ ("``` " ++ nl) ++ json_dumps rt data ++ (nl ++ " ```" ++ nl))
            all_data "".

Definition merge_messages (self : Extractor) (all_data : list json)
    (attributes : attributes_t) : result (list message) :=
  let elements := json_dumps rt (attributes_json attributes) in
  match format (prompt_merge_template (class_of self))
               [("elements", elements); ("jsons_list", jsons_list all_data)] with
  | Raise e => Raise e
  | Ok human_msg =>
      match system_message (system_merge_prompt (class_of self)) with
      | Raise e => Raise e
      | Ok sys => Ok [sys; HumanMessage human_msg]
      end
  end.

Definition merge_all_data (self : Extractor) (all_data : list json)
    (attributes : attributes_t) : M json :=
  emit (CallMerge all_data) ;;
  messages <- lift (merge_messages self all_data attributes) ;;
  output <- invoke messages ;;
  lift (parse rt output).

(** *** [run] *)

(** The loop that prints the token count of each chunk, [i] counting from
    the index of the first chunk of [chunks]. *)
Fixpoint print_token_counts (self : Extractor) (i : Z) (chunks : list Document)
  : M unit :=
  match chunks with
  | [] => ret tt
  | chunk :: rest =>
      let token_count := length_function (text_splitter self) (page_content chunk) in
      emit (Print ("Chunk " ++ str_int (i + 1) ++ " token count: " ++ str_int token_count)) ;;
      print_token_counts self (i + 1) rest
  end.

(** [self.chunks_data.append(chunk_data)]. *)
Definition append_chunks_data (chunk_data : json) : M unit :=
  fun w =>
    match chunks_data w with
    | Some l => (Ok tt, World (trace w) (Some (l ++ [chunk_data])%list))
    | None => (Raise (AttributeError "'NoneType' object has no attribute 'append'"), w)
    end.

(** The [for] loop over the chunks; [chunk_data] is the variable of that
    name at the start of the remaining iterations. *)
Fixpoint extract_chunks (self : Extractor) (attributes : attributes_t)
    (chunks : list Document) (chunk_data : json) : M json :=
  match chunks with
  | [] => ret chunk_data
  | element :: rest =>
      chunk_data <- extract self (str_document rt element) attributes chunk_data ;;
      append_chunks_data chunk_data ;;
      extract_chunks self attributes rest chunk_data
  end.

Definition run (self : Extractor) (content : string) (attributes : attributes_t)
  : M json :=
  match system_prompt (class_of self) with
  | None => raise (ValueError "system_prompt is not defined for this extractor")
  | Some _ =>
  match prompt_template (class_of self) with
  | None => raise (ValueError "prompt_template is not defined for this extractor")
  | Some _ =>
      emit (CreateDocuments [content]) ;;
      chunks <- lift (create_documents rt (text_splitter self) [content]) ;;
      print_token_counts self 0 chunks ;;
      if (1 <? List.length chunks)%nat then
        set_chunks_data (Some []) ;;
        _ <- extract_chunks self attributes chunks JNull ;;
        all_data <- get_chunks_data ;;
        match all_data with
        | Some all_data => merge_all_data self all_data attributes
        | None => raise (TypeError "'NoneType' object is not iterable")
        end
      else
        match chunks with
        | [] => raise (IndexError "list index out of range")
        | chunk :: _ => extract self (str_document rt chunk) attributes JNull
        end
  end
  end.

End WithRuntime.

(** ** Auxiliary definitions for the statements *)

(** The last [k] elements of [l] (all of [l] when [k] exceeds its length). *)
Definition last_n {A : Type} (k : nat) (l : list A) : list A :=
  skipn (List.length l - k)%nat l.

(** The lines printed by [print_token_counts]. *)
Fixpoint token_count_lines (self : Extractor) (i : Z) (chunks : list Document)
  : list event :=
  match chunks with
  | [] => []
  | chunk :: rest =>
      Print ("Chunk " ++ str_int (i + 1) ++ " token count: "
             ++ str_int (length_function (text_splitter self) (page_content chunk)))
      :: token_count_lines self (i + 1) rest
  end.

(** ** The order of a multi-window run, as the specification words it

    [sequential rt self attributes prev chunks w partials w'] reads: starting
    in [w] with continuation [prev], each window of [chunks] in turn is
    extracted with the partial result of the window just before it, the call
    succeeds, and its partial result is appended to the accumulated list;
    [partials] are the results in window order and [w'] is the world at the
    end. *)
Inductive sequential (rt : Runtime) (self : Extractor) (attributes : attributes_t)
  : json -> list Document -> world -> list json -> world -> Prop :=
| sequential_done : forall prev w,
    sequential rt self attributes prev [] w [] w
| sequential_next : forall prev chunk chunks w partial w1 acc partials w2,
    extract rt self (str_document rt chunk) attributes prev w = (Ok partial, w1) ->
    chunks_data w1 = Some acc ->
    sequential rt self attributes partial chunks
               (World (trace w1) (Some (acc ++ [partial])%list)) partials w2 ->
    sequential rt self attributes prev (chunk :: chunks) w (partial :: partials) w2.

(** The [extract] calls of a chain: window [i] with continuation [i]. *)
Definition extract_calls (rt : Runtime) (chunks : list Document)
    (continuations : list json) : list event :=
  map (fun cp => CallExtract (str_document rt (fst cp)) (snd cp))
      (combine chunks continuations).

(** The world in which the first window of a run on [chunks] is extracted. *)
Definition after_split (self : Extractor) (content : string)
    (chunks : list Document) (w : world) : world :=
  snd (print_token_counts self 0 chunks
         (World (trace w ++ [CreateDocuments [content]]) (chunks_data w))).

(** ** Records of a result, for the merge properties *)

Definition field (name : string) (record : json) : option json :=
  match record with
  | JObj members =>
      match find (fun kv => String.eqb (fst kv) name) members with
      | Some kv => Some (snd kv)
      | None => None
      end
  | _ => None
  end.

Definition records (v : json) : list json :=
  match v with JArr items => items | _ => [] end.

(** Two records are the same logical record when their [key] fields agree. *)
Definition same_record (key : string) (r s : json) : Prop :=
  field key r <> None /\ field key r = field key s.

(** The missing-value rule, for records identified by [key]: a field that is
    null in one partial and not null in another is not null in the merged
    record. *)
Definition missing_value_precedence (key : string) (all_data : list json)
    (merged : json) : Prop :=
  forall p q r s f v,
    In p all_data -> In q all_data ->
    In r (records p) -> In s (records q) ->
    same_record key r s ->
    field f r = Some JNull -> field f s = Some v -> v <> JNull ->
    forall m, In m (records merged) -> same_record key m r -> field f m = Some v.

(** [needle in haystack]. *)
Fixpoint contains (needle haystack : string) : bool :=
  match haystack with
  | EmptyString => String.eqb needle EmptyString
  | String _ rest => String.prefix needle haystack || contains needle rest
  end.

(** ** A deterministic runtime for examples *)

Module Stub.

(** A [json.dumps] for the values of the examples, with Python's separators:
    it is right on ASCII strings without control characters and on values
    without floats, which is all the examples hold. *)
Fixpoint escape (s : string) : string :=
  match s with
  | EmptyString => EmptyString
  | String c rest =>
      if Ascii.eqb c dquote then String "\" (String dquote (escape rest))
      else if Ascii.eqb c "\" then String "\" (String "\" (escape rest))
      else String c (escape rest)
  end.

Definition quoted (s : string) : string :=
  String dquote (escape s ++ String dquote EmptyString).

Fixpoint dumps (v : json) : string :=
  match v with
  | JNull => "null"
  | JBool true => "true"
  | JBool false => "false"
  | JInt n => str_int n
  | JFloat _ => "NaN"
  | JStr s => quoted s
  | JArr items =>
      "[" ++ (fix go (l : list json) : string :=
                match l with
                | [] => ""
                | [x] => dumps x
                | x :: rest => dumps x ++ ", " ++ go rest
                end) items ++ "]"
  | JObj members =>
      "{" ++ (fix go (l : list (string * json)) : string :=
                match l with
                | [] => ""
                | [(k, x)] => quoted k ++ ": " ++ dumps x
                | (k, x) :: rest => quoted k ++ ": " ++ dumps x ++ ", " ++ go rest
                end) members ++ "}"
  end.

Definition lookup (name : string) (kwargs : list (string * string)) : result string :=
  match find (fun kv => String.eqb (fst kv) name) kwargs with
  | Some kv => Ok (snd kv)
  | None => Raise (Exception "KeyError" name)
  end.

(** [str.format] for templates whose replacement fields are plain names;
    [field] is the name being read inside braces, if any. *)
Fixpoint format_from (kwargs : list (string * string)) (s : string)
    (field : option string) : result string :=
  match s with
  | EmptyString =>
      match field with
      | None => Ok EmptyString
      | Some _ => Raise (ValueError "expected '}' before end of string")
      end
  | String c rest =>
      match field with
      | Some name =>
          if Ascii.eqb c "}" then
            match lookup name kwargs, format_from kwargs rest None with
            | Ok v, Ok r => Ok (v ++ r)
            | Raise e, _ => Raise e
            | _, Raise e => Raise e
            end
          else format_from kwargs rest (Some (name ++ String c EmptyString))
      | None =>
          if Ascii.eqb c "{" then
            match rest with
            | String "{" rest' =>
                match format_from kwargs rest' None with
                | Ok r => Ok (String "{" r)
                | Raise e => Raise e
                end
            | _ => format_from kwargs rest (Some EmptyString)
            end
          else if Ascii.eqb c "}" then
            match rest with
            | String "}" rest' =>
                match format_from kwargs rest' None with
                | Ok r => Ok (String "}" r)
                | Raise e => Raise e
                end
            | _ => Raise (ValueError "Single '}' encountered in format string")
            end
          else
            match format_from kwargs rest None with
            | Ok r => Ok (String c r)
            | Raise e => Raise e
            end
      end
  end.

Definition format (template : string) (kwargs : list (string * string))
  : result string :=
  format_from kwargs template None.

(** A splitter that cuts at each vertical bar. *)
Fixpoint pieces (s : string) (current : string) : list string :=
  match s with
  | EmptyString => if String.eqb current "" then [] else [current]
  | String c rest =>
      if Ascii.eqb c "|" then current :: pieces rest ""
      else pieces rest (current ++ String c EmptyString)
  end.

Definition split (_ : TextSplitter) (texts : list string) : result (list Document) :=
  Ok (flat_map (fun t => map Build_Document (pieces t "")) texts).

(** A parser that recognises the serialisations of [known]. *)
Definition parse_among (known : list json) (text : string) : result json :=
  match find (fun v => String.eqb (dumps v) text) known with
  | Some v => Ok v
  | None => Raise (Exception "OutputParserException" "Invalid json output")
  end.

(** A model whose [n]-th answer is the [n]-th element of [answers]. *)
Definition scripted (answers : list (result string))
    (history : list (list message)) (_ : list message) : result string :=
  nth (List.length history) answers
      (Raise (Exception "RuntimeError" "no more answers")).

Definition runtime (answers : list (result string)) (known : list json) : Runtime := {|
  ainvoke := scripted answers;
  parse := parse_among known;
  create_documents := split;
  json_dumps := dumps;
  str_format := format;
  str_document := fun d => "page_content='" ++ page_content d ++ "'";
  count_tokens := fun s => Z.of_nat (String.length s)
|}.

Definition splitter : TextSplitter :=
  {| chunk_size := 100000; chunk_overlap := 33333;
     length_function := fun s => Z.of_nat (String.length s) |}.

Definition extractor : Extractor :=
  {| class_of := ChunksTabularExtractor; text_splitter := splitter |}.

Definition attributes : attributes_t :=
  [("name", "extract the product name"); ("price", "extract the numeric price")].

Definition record (name : string) (price : json) : json :=
  JObj [("name", JStr name); ("price", price)].

Definition row1 : json := record "zero element" (JStr "123").
Definition row2 : json := record "first element" (JStr "100").
Definition row3 : json := record "second element" (JStr "200").
Definition row4 : json := record "third element" JNull.
Definition row4' : json := record "third element" (JStr "400").
Definition row5 : json := record "fourth element" (JStr "350").

Definition partial_a : json := JArr [row1; row2; row3; row4].
Definition partial_b : json := JArr [row3; row4'; row5].
Definition merged_ab : json := JArr [row1; row2; row3; row4'; row5].

Definition merged_null : json := JArr [row1; row2; row3; row4; row5].

Definition known : list json :=
  [partial_a; partial_b; merged_ab; merged_null; JArr [row1]; JArr []].

Definition start : world := World [] None.

Definition boom : exn := Exception "RuntimeError" "model unavailable".

(** Two windows, both extracted, then merged as the prompt asks. *)
Definition rt_ok : Runtime :=
  runtime [Ok (dumps partial_a); Ok (dumps partial_b); Ok (dumps merged_ab)] known.

(** Two windows, both extracted; the merge answer keeps the null price. *)
Definition rt_null : Runtime :=
  runtime [Ok (dumps partial_a); Ok (dumps partial_b); Ok (dumps merged_null)] known.

(** The model fails on its second request. *)
Definition rt_fail : Runtime :=
  runtime [Ok (dumps partial_a); Raise boom] known.

(** One request, answered with an empty list. *)
Definition rt_empty : Runtime := runtime [Ok (dumps (JArr []))] known.

Definition doc (text : string) : Document := {| page_content := text |}.

(** The class with its continuation template removed. *)
Definition no_append_template : Extractor :=
  {| class_of :=
       {| system_prompt := system_prompt ChunksTabularExtractor;
          prompt_template := prompt_template ChunksTabularExtractor;
          system_merge_prompt := system_merge_prompt ChunksTabularExtractor;
          prompt_merge_template := prompt_merge_template ChunksTabularExtractor;
          append_system_prompt := append_system_prompt ChunksTabularExtractor;
          append_prompt_template := None;
          overlap_factor := 3 |};
     text_splitter := splitter |}.

(** The class with its system prompt removed, as in the base class. *)
Definition no_system_prompt : Extractor :=
  {| class_of :=
       {| system_prompt := None;
          prompt_template := prompt_template ChunksTabularExtractor;
          system_merge_prompt := system_merge_prompt ChunksTabularExtractor;
          prompt_merge_template := prompt_merge_template ChunksTabularExtractor;
          append_system_prompt := append_system_prompt ChunksTabularExtractor;
          append_prompt_template := append_prompt_template ChunksTabularExtractor;
          overlap_factor := 3 |};
     text_splitter := splitter |}.

(** The worlds of a run of [rt_fail] on three windows. *)
Definition three : list Document := [doc "one"; doc "two"; doc "three"].

Definition w_split : world :=
  World (trace (after_split extractor "one|two|three" three start)) (Some []).

Definition w_one : world :=
  snd (extract rt_fail extractor (str_document rt_fail (doc "one")) attributes JNull w_split).

Definition w_acc : world := World (trace w_one) (Some [partial_a]).

Definition w_two : world :=
  snd (extract rt_fail extractor (str_document rt_fail (doc "two")) attributes
               partial_a w_acc).

End Stub.

(** * The rest of the code

    ** [simple_extractor]: the base class and [TabularExtractor] *)

(** What [Extractor.run] reads of its class. *)
Record SimpleExtractor : Type := {
  simple_system_prompt : option string;
  simple_prompt_template : option string
}.

Definition Extractor_base : SimpleExtractor :=
  {| simple_system_prompt := None;
     simple_prompt_template := Some SIMPLE_EXTRACTOR_PROMPT_TEMPLATE |}.

Definition TabularExtractor : SimpleExtractor :=
  {| simple_system_prompt := Some TABULAR_EXTRACTOR_SYSTEM_PROMPT;
     simple_prompt_template := Some SIMPLE_EXTRACTOR_PROMPT_TEMPLATE |}.

(** The two attributes as a chunked extractor inherits them. *)
Definition inherited (cls : ExtractorClass) : SimpleExtractor :=
  {| simple_system_prompt := system_prompt cls;
     simple_prompt_template := prompt_template cls |}.

(** [Extractor.run]. *)
Definition Extractor_run (rt : Runtime) (self : SimpleExtractor) (content : string)
    (attributes : attributes_t) : M json :=
  match simple_system_prompt self with
  | None => raise (ValueError "system_prompt is not defined for this extractor")
  | Some _ =>
  match simple_prompt_template self with
  | None => raise (ValueError "prompt_template is not defined for this extractor")
  | Some _ =>
      let elements := json_dumps rt (attributes_json attributes) in
      human_msg <- lift (format rt (simple_prompt_template self)
                                [("markdown", content); ("elements", elements)]) ;;
      sys <- lift (system_message (simple_system_prompt self)) ;;
      output <- invoke rt [sys; HumanMessage human_msg] ;;
      lift (parse rt output)
  end
  end.

(** ** [test.py]: [crawl_products]

    The class [Parsera] is not part of these sources: its constructor and
    its [run] method are fields of [Scraper], with the test
    [isinstance(e, Exception)] that the [except] clauses make. *)
Record Scraper (P : Type) : Type := {
  Parsera : result P;
  Parsera_run : P -> string -> attributes_t -> result json;
  is_Exception : exn -> bool
}.
Arguments Parsera {P} s.
Arguments Parsera_run {P} s scrapper url elements.
Arguments is_Exception {P} s e.

Definition crawl_elements : attributes_t :=
  [("name", "extract the product name");
   ("price", "extract the product price in number");
   ("description", "extract the product description");
   ("image", "extract the product image URL");
   ("link", "extract the product page URL");
   ("tags", "extract the list of tags for products example:[small, colorful, t-shirt, etc.]")].

Definition error_dict (message : string) : json := JObj [("error", JStr message)].

(** [crawl_products]: the value returned or the exception that escapes, and
    the lines printed.  [exn_msg e] stands for [str(e)]. *)
Definition crawl_products {P : Type} (api : Scraper P) (url : string)
  : result json * list string :=
  match Parsera api with
  | Ok scrapper =>
      match Parsera_run api scrapper url crawl_elements with
      | Ok result =>
          if negb (truthy result) then (Ok (error_dict "No data extracted"), [])
          else (Ok result, [])
      | Raise e =>
          if is_Exception api e
          then (Ok (error_dict ("Extraction failed: " ++ exn_msg e)), [])
          else (Raise e, [])
      end
  | Raise e =>
      if is_Exception api e
      then (Ok (error_dict ("Initialization failed: " ++ exn_msg e)),
            ["Error initializing scraper: " ++ exn_msg e])
      else (Raise e, [])
  end.

(** ** Further notions for the statements *)

(** A model whose answer depends on the request only. *)
Definition history_independent (rt : Runtime) : Prop :=
  forall (h1 h2 : list (list message)) (messages : list message),
    ainvoke rt h1 messages = ainvoke rt h2 messages.

(** A request made of the system message [s] of the class, for extraction
    or for merging, and of one human message. *)
Definition request_of (cls : ExtractorClass) (messages : list message) : Prop :=
  exists s h,
    messages = [SystemMessage s; HumanMessage h]
    /\ (system_prompt cls = Some s \/ system_merge_prompt cls = Some s).

Definition is_output (e : event) : bool :=
  match e with Print _ | CreateDocuments _ => true | _ => false end.

(** The extractor with another value for [append_system_prompt]. *)
Definition with_append_system_prompt (v : option string) (self : Extractor)
  : Extractor :=
  {| class_of :=
       {| system_prompt := system_prompt (class_of self);
          prompt_template := prompt_template (class_of self);
          system_merge_prompt := system_merge_prompt (class_of self);
          prompt_merge_template := prompt_merge_template (class_of self);
          append_system_prompt := v;
          append_prompt_template := append_prompt_template (class_of self);
          overlap_factor := overlap_factor (class_of self) |};
     text_splitter := text_splitter self |}.

(** The extractor with another divisor, the class attribute being
    overridden after construction. *)
Definition with_overlap_factor (d : Z) (self : Extractor) : Extractor :=
  {| class_of :=
       {| system_prompt := system_prompt (class_of self);
          prompt_template := prompt_template (class_of self);
          system_merge_prompt := system_merge_prompt (class_of self);
          prompt_merge_template := prompt_merge_template (class_of self);
          append_system_prompt := append_system_prompt (class_of self);
          append_prompt_template := append_prompt_template (class_of self);
          overlap_factor := d |};
     text_splitter := text_splitter self |}.

(** ** Further examples *)

Module Cases.

(** A model that gives the same answer to every request. *)
Definition constant (answer : result string)
    (_ : list (list message)) (_ : list message) : result string := answer.

Definition rt_constant : Runtime := {|
  ainvoke := constant (Ok (Stub.dumps (JArr [Stub.row1])));
  parse := Stub.parse_among Stub.known;
  create_documents := Stub.split;
  json_dumps := Stub.dumps;
  str_format := Stub.format;
  str_document := fun d => "page_content='" ++ page_content d ++ "'";
  count_tokens := fun s => Z.of_nat (String.length s)
|}.

(** Two windows extracted, then the model fails on the merge request. *)
Definition rt_merge_fails : Runtime :=
  Stub.runtime [Ok (Stub.dumps Stub.partial_a); Ok (Stub.dumps Stub.partial_b);
                Raise Stub.boom] Stub.known.

Definition two : list Document := [Stub.doc "first"; Stub.doc "second"].

Definition w_split2 : world :=
  World (trace (after_split Stub.extractor "first|second" two Stub.start)) (Some []).

Definition w_first : world :=
  snd (extract rt_merge_fails Stub.extractor
               (str_document rt_merge_fails (Stub.doc "first"))
               Stub.attributes JNull w_split2).

Definition w_acc1 : world := World (trace w_first) (Some [Stub.partial_a]).

Definition w_second : world :=
  snd (extract rt_merge_fails Stub.extractor
               (str_document rt_merge_fails (Stub.doc "second"))
               Stub.attributes Stub.partial_a w_acc1).

Definition w_acc2 : world :=
  World (trace w_second) (Some [Stub.partial_a; Stub.partial_b]).

Definition keyed : json :=
  JObj [("name", JStr "zero element"); ("price", JStr "123");
        ("link", JNull); ("tags", JArr [])].

(** The three characters e-acute, a, b: the first takes two bytes. *)
Definition accented : string :=
  String "195"%char (String "169"%char "ab").

(** Every exception class but the ones that do not derive from [Exception]. *)
Definition derives_from_Exception (e : exn) : bool :=
  negb (existsb (String.eqb (exn_class e))
                ["BaseException"; "KeyboardInterrupt"; "SystemExit"; "GeneratorExit"]).

(** A scraper whose [run] raises. *)
Definition failing_scraper : Scraper unit := {|
  Parsera := Ok tt;
  Parsera_run := fun _ _ _ => Raise Stub.boom;
  is_Exception := derives_from_Exception
|}.

(** A scraper that cannot be constructed. *)
Definition broken_scraper : Scraper unit := {|
  Parsera := Raise Stub.boom;
  Parsera_run := fun _ _ _ => Ok (JArr []);
  is_Exception := derives_from_Exception
|}.

(** A scraper whose [run] finds nothing. *)
Definition empty_scraper : Scraper unit := {|
  Parsera := Ok tt;
  Parsera_run := fun _ _ _ => Ok (JArr []);
  is_Exception := derives_from_Exception
|}.

End Cases.


(** * Properties *)

Section Properties.

Variable rt : Runtime.

(** ** The trace *)

Lemma invocations_app (tr1 tr2 : list event) :
  invocations (tr1 ++ tr2) = (invocations tr1 ++ invocations tr2)%list.
Proof. unfold invocations. apply flat_map_app. Qed.

Lemma method_calls_app (tr1 tr2 : list event) :
  method_calls (tr1 ++ tr2) = (method_calls tr1 ++ method_calls tr2)%list.
Proof. unfold method_calls. apply filter_app. Qed.

Lemma method_calls_prints (self : Extractor) (chunks : list Document) (i : Z) :
  method_calls (token_count_lines self i chunks) = [].
Proof.
  revert i. induction chunks as [|c cs IH]; intro i; simpl; [reflexivity|].
  apply IH.
Qed.

Lemma invocations_prints (self : Extractor) (chunks : list Document) (i : Z) :
  invocations (token_count_lines self i chunks) = [].
Proof.
  revert i. induction chunks as [|c cs IH]; intro i; simpl; [reflexivity|].
  apply IH.
Qed.

Lemma print_token_counts_eq (self : Extractor) (chunks : list Document) :
  forall (i : Z) (w : world),
    print_token_counts self i chunks w =
    (Ok tt, World (trace w ++ token_count_lines self i chunks) (chunks_data w)).
Proof.
  induction chunks as [|c cs IH]; intros i w; simpl.
  - unfold ret. rewrite app_nil_r. destruct w; reflexivity.
  - unfold bind, emit. rewrite IH. simpl. rewrite <- app_assoc. reflexivity.
Qed.

Lemma after_split_eq (self : Extractor) (content : string)
    (chunks : list Document) (w : world) :
  after_split self content chunks w =
  World ((trace w ++ [CreateDocuments [content]]) ++ token_count_lines self 0 chunks)
        (chunks_data w).
Proof. unfold after_split. rewrite print_token_counts_eq. reflexivity. Qed.

(** ** [extract] and [merge_all_data], one step at a time *)

Lemma extract_eq (self : Extractor) (markdown : string) (attributes : attributes_t)
    (previous_data : json) (w : world) :
  extract rt self markdown attributes previous_data w =
  match extract_messages rt self markdown attributes previous_data with
  | Raise e =>
      (Raise e, World (trace w ++ [CallExtract markdown previous_data]) (chunks_data w))
  | Ok messages =>
      (match ainvoke rt (invocations (trace w)) messages with
       | Ok output => parse rt output
       | Raise e => Raise e
       end,
       World ((trace w ++ [CallExtract markdown previous_data]) ++ [Invoke messages])
             (chunks_data w))
  end.
Proof.
  unfold extract, bind, emit, lift, invoke. simpl.
  destruct (extract_messages rt self markdown attributes previous_data) as [m|e];
    [|reflexivity].
  rewrite invocations_app. simpl. rewrite app_nil_r.
  destruct (ainvoke rt (invocations (trace w)) m); reflexivity.
Qed.

Lemma merge_all_data_eq (self : Extractor) (all_data : list json)
    (attributes : attributes_t) (w : world) :
  merge_all_data rt self all_data attributes w =
  match merge_messages rt self all_data attributes with
  | Raise e => (Raise e, World (trace w ++ [CallMerge all_data]) (chunks_data w))
  | Ok messages =>
      (match ainvoke rt (invocations (trace w)) messages with
       | Ok output => parse rt output
       | Raise e => Raise e
       end,
       World ((trace w ++ [CallMerge all_data]) ++ [Invoke messages]) (chunks_data w))
  end.
Proof.
  unfold merge_all_data, bind, emit, lift, invoke. simpl.
  destruct (merge_messages rt self all_data attributes) as [m|e]; [|reflexivity].
  rewrite invocations_app. simpl. rewrite app_nil_r.
  destruct (ainvoke rt (invocations (trace w)) m); reflexivity.
Qed.

(** [extract] adds one method call to the trace, at most one request to the
    model, and leaves [chunks_data] alone. *)
Lemma extract_frame (self : Extractor) (markdown : string) (attributes : attributes_t)
    (previous_data : json) (w : world) (r : result json) (w' : world) :
  extract rt self markdown attributes previous_data w = (r, w') ->
  chunks_data w' = chunks_data w /\
  exists new,
    trace w' = (trace w ++ CallExtract markdown previous_data :: new)%list /\
    method_calls new = [] /\
    filter is_merge new = [] /\
    (List.length (invocations new) <= 1)%nat.
Proof.
  rewrite extract_eq.
  destruct (extract_messages rt self markdown attributes previous_data) as [m|e];
    intro H; inversion H; subst; clear H; simpl.
  - split; [reflexivity|]. exists [Invoke m]. rewrite <- app_assoc. simpl.
    repeat split; solve [reflexivity | lia].
  - split; [reflexivity|]. exists []. simpl.
    repeat split; solve [reflexivity | lia].
Qed.

(** The outcome of [extract] does not depend on [chunks_data]. *)
Lemma extract_chunks_data_irrelevant (self : Extractor) (markdown : string)
    (attributes : attributes_t) (previous_data : json) (tr : list event)
    (cd1 cd2 : option (list json)) :
  fst (extract rt self markdown attributes previous_data (World tr cd1)) =
  fst (extract rt self markdown attributes previous_data (World tr cd2)) /\
  trace (snd (extract rt self markdown attributes previous_data (World tr cd1))) =
  trace (snd (extract rt self markdown attributes previous_data (World tr cd2))).
Proof.
  rewrite !extract_eq. simpl.
  destruct (extract_messages rt self markdown attributes previous_data);
    simpl; split; reflexivity.
Qed.

(** ** The request built by [extract] *)

Lemma code_points_nonempty (s : string) : s <> EmptyString -> code_points s <> [].
Proof.
  destruct s as [|c rest]; [contradiction|]. intros _. cbn [code_points].
  destruct (starts_with_continuation rest), (code_points rest); discriminate.
Qed.

Lemma truthy_as_list_nonempty (previous_data : json) (l : list json) :
  truthy previous_data = true -> as_list previous_data = Ok l -> l <> [].
Proof.
  destruct previous_data as [| b | n | x | s | items | members];
    unfold as_list; simpl; intros Ht Hl; try discriminate.
  - inversion Hl; subst. intro Hnil. apply map_eq_nil in Hnil.
    apply (code_points_nonempty s); [|exact Hnil].
    intro Hs. subst s. discriminate.
  - destruct items; [discriminate|]. inversion Hl; subst. discriminate.
  - destruct members; [discriminate|]. inversion Hl; subst. simpl. discriminate.
Qed.

Lemma length_pos_test (l : list json) :
  l <> [] -> (0 <? Z.of_nat (List.length l)) = true.
Proof.
  intro H. destruct l; [contradiction|]. apply Z.ltb_lt. simpl List.length. lia.
Qed.

(** The ceiling of a third, computed as [math.ceil] does and on naturals. *)
Lemma ceil_div_three (L : nat) :
  (1 <= L)%nat -> Z.max 1 (ceil_div (Z.of_nat L) 3) = Z.of_nat (Nat.max 1 ((L + 2) / 3)).
Proof.
  intro HL. unfold ceil_div.
  pose proof (Nat.div_mod_eq (L + 2) 3) as Hn.
  pose proof (Nat.mod_upper_bound (L + 2) 3 ltac:(lia)) as Hb.
  generalize dependent ((L + 2) / 3)%nat. intros q Hn.
  generalize dependent ((L + 2) mod 3)%nat. intros r Hb Hn.
  assert (Hq : - Z.of_nat L / 3 = - Z.of_nat q).
  { symmetry. apply (Z.div_unique _ _ _ (3 * Z.of_nat q - Z.of_nat L)); lia. }
  rewrite Hq. lia.
Qed.

(** With the divisor 3 the cutoff is the ceiling of a third of the length. *)
Lemma cutoff_three (self : Extractor) (l : list json) :
  overlap_factor (class_of self) = 3 -> l <> [] ->
  cutoff self l = Ok (Z.of_nat (Nat.max 1 ((List.length l + 2) / 3))).
Proof.
  intros H3 Hl. unfold cutoff. rewrite H3. simpl (3 =? 0). cbv iota.
  rewrite ceil_div_three; [reflexivity|].
  destruct l; [contradiction|simpl; lia].
Qed.

Lemma slice_from_last_n (k : nat) (l : list json) :
  (1 <= k)%nat -> slice_from (- Z.of_nat k) l = last_n k l.
Proof.
  intro Hk. unfold slice_from, last_n.
  replace (- Z.of_nat k <? 0) with true by (symmetry; apply Z.ltb_lt; lia).
  f_equal. lia.
Qed.

Lemma cutoff_at_least_one (self : Extractor) (l : list json) (c : Z) :
  cutoff self l = Ok c -> 1 <= c.
Proof.
  unfold cutoff. destruct (overlap_factor (class_of self) =? 0); [discriminate|].
  intro H. inversion H. lia.
Qed.

Lemma slice_from_nonempty (c : Z) (l : list json) :
  1 <= c -> l <> [] -> slice_from (- c) l <> [].
Proof.
  intros Hc Hl Hnil. apply (f_equal (@List.length json)) in Hnil.
  unfold slice_from in Hnil.
  replace (- c <? 0) with true in Hnil by (symmetry; apply Z.ltb_lt; lia).
  rewrite length_skipn in Hnil. simpl in Hnil.
  assert (1 <= List.length l)%nat by (destruct l; [contradiction|simpl; lia]).
  lia.
Qed.

(** C10. If the previous partial result is the empty list, [extract] builds
    its request exactly as when there is no previous result: the prompt
    template without continuation is used, as for every value that Python
    takes as false.  For every other value, either turning it into a list
    raises, or the list whose length is tested is not empty: the test
    [len(previous_data) > 0] holds, and the human message is the
    continuation template filled with the serialisation of a slice that is
    not empty.  So on no input does the human message come from the
    alternative that sets the tail to the text of an empty list. *)
Theorem empty_previous_is_fresh_and_empty_tail_unreachable :
  forall (self : Extractor) (markdown : string) (attributes : attributes_t),
    extract_human_msg rt self markdown attributes (JArr []) =
      format rt (prompt_template (class_of self))
             [("markdown", markdown);
              ("elements", json_dumps rt (attributes_json attributes))]
    /\ extract_messages rt self markdown attributes (JArr []) =
       extract_messages rt self markdown attributes JNull
    /\ (forall (previous_data : json) (l : list json),
         truthy previous_data = true -> as_list previous_data = Ok l ->
         (0 <? Z.of_nat (List.length l)) = true
         /\ previous_tail rt self l =
            match cutoff self l with
            | Ok c => Ok (json_dumps rt (JArr (slice_from (- c) l)))
            | Raise e => Raise e
            end
         /\ extract_human_msg rt self markdown attributes previous_data =
            match cutoff self l with
            | Ok c =>
                format rt (append_prompt_template (class_of self))
                       [("markdown", markdown);
                        ("elements", json_dumps rt (attributes_json attributes));
                        ("previous_data", json_dumps rt (JArr (slice_from (- c) l)))]
            | Raise e => Raise e
            end
         /\ (forall c, cutoff self l = Ok c -> 1 <= c /\ slice_from (- c) l <> []))
    /\ (forall (previous_data : json),
         truthy previous_data = false ->
         extract_human_msg rt self markdown attributes previous_data =
         format rt (prompt_template (class_of self))
                [("markdown", markdown);
                 ("elements", json_dumps rt (attributes_json attributes))])
    /\ (forall (previous_data : json) (e : exn),
         truthy previous_data = true -> as_list previous_data = Raise e ->
         extract_human_msg rt self markdown attributes previous_data = Raise e).
Proof.
  intros self markdown attributes. split; [reflexivity|]. split; [reflexivity|].
  split; [|split].
  - intros previous_data l Ht Hl.
    pose proof (truthy_as_list_nonempty _ _ Ht Hl) as Hne.
    pose proof (length_pos_test l Hne) as Hpos.
    split; [exact Hpos|]. split; [unfold previous_tail; rewrite Hpos; reflexivity|].
    split.
    + unfold extract_human_msg. rewrite Ht, Hl. cbn [negb].
      unfold previous_tail. rewrite Hpos.
      destruct (cutoff self l); reflexivity.
    + intros c Hc. pose proof (cutoff_at_least_one self l c Hc) as H1.
      split; [exact H1|]. apply slice_from_nonempty; assumption.
  - intros previous_data Hf. unfold extract_human_msg. rewrite Hf. reflexivity.
  - intros previous_data e Ht He. unfold extract_human_msg. rewrite Ht, He.
    reflexivity.
Qed.

(** C1 (amended). With the divisor 3, when the previous partial result is a
    non-empty list of length L, the human message of the next request is the
    continuation template filled with the serialisation of the last
    max(1, ceil(L / 3)) records of that list.  This tail is a proper part of
    the list as soon as L is at least 2; for L = 1 it is the whole list. *)
Theorem continuation_is_last_third :
  forall (self : Extractor) (markdown : string) (attributes : attributes_t)
         (l : list json),
    overlap_factor (class_of self) = 3 -> l <> [] ->
    let L := List.length l in
    let k := Nat.max 1 ((L + 2) / 3) in
    extract_human_msg rt self markdown attributes (JArr l) =
      format rt (append_prompt_template (class_of self))
             [("markdown", markdown);
              ("elements", json_dumps rt (attributes_json attributes));
              ("previous_data", json_dumps rt (JArr (last_n k l)))]
    /\ List.length (last_n k l) = k
    /\ (L <= 3 * k < L + 3)%nat
    /\ (exists front, l = (front ++ last_n k l)%list)
    /\ (2 <= L -> k < L)%nat
    /\ (L = 1%nat -> last_n k l = l).
Proof.
  intros self markdown attributes l H3 Hl L k.
  assert (HL : (1 <= L)%nat) by (subst L; destruct l; [contradiction|simpl; lia]).
  pose proof (Nat.div_mod_eq (L + 2) 3) as Hn.
  pose proof (Nat.mod_upper_bound (L + 2) 3 ltac:(lia)) as Hb.
  assert (Hk : (1 <= k /\ L <= 3 * k < L + 3 /\ k <= L)%nat) by (subst k; lia).
  split.
  - unfold extract_human_msg.
    replace (truthy (JArr l)) with true by (destruct l; [contradiction|reflexivity]).
    simpl negb. cbv iota. unfold as_list. simpl.
    unfold previous_tail. rewrite (length_pos_test l Hl).
    rewrite (cutoff_three self l H3 Hl).
    rewrite slice_from_last_n by (fold L; lia). reflexivity.
  - split.
    { unfold last_n. rewrite length_skipn. fold L. lia. }
    split; [lia|]. split.
    { exists (firstn (L - k) l). unfold last_n. fold L.
      symmetry. apply firstn_skipn. }
    split; [subst k; lia|].
    intro H1. unfold last_n. fold L.
    replace (L - k)%nat with 0%nat by lia. reflexivity.
Qed.

(** ** The constructor *)

Lemma splitter_accepts (size overlap : Z) (f : string -> Z) :
  0 < size -> 0 <= overlap <= size ->
  RecursiveCharacterTextSplitter size overlap f =
  Ok {| chunk_size := size; chunk_overlap := overlap; length_function := f |}.
Proof.
  intros Hs Ho. unfold RecursiveCharacterTextSplitter.
  replace (size <=? 0) with false by (symmetry; apply Z.leb_gt; lia).
  replace (overlap <? 0) with false by (symmetry; apply Z.ltb_ge; lia).
  replace (size <? overlap) with false by (symmetry; apply Z.ltb_ge; lia).
  reflexivity.
Qed.

Lemma splitter_rejects (size overlap : Z) (f : string -> Z) :
  size <= 0 ->
  exists msg, RecursiveCharacterTextSplitter size overlap f = Raise (ValueError msg).
Proof.
  intro Hs. unfold RecursiveCharacterTextSplitter.
  replace (size <=? 0) with true by (symmetry; apply Z.leb_le; lia).
  eexists. reflexivity.
Qed.

(** What the splitter constructor keeps when it accepts its arguments. *)
Lemma splitter_keeps (size overlap : Z) (f : string -> Z) (splitter : TextSplitter) :
  RecursiveCharacterTextSplitter size overlap f = Ok splitter ->
  chunk_size splitter = size /\ chunk_overlap splitter = overlap
  /\ length_function splitter = f.
Proof.
  unfold RecursiveCharacterTextSplitter.
  destruct (size <=? 0); [discriminate|].
  destruct (overlap <? 0); [discriminate|].
  destruct (size <? overlap); [discriminate|].
  intro H. inversion H. repeat split; reflexivity.
Qed.

(** C6. For every chunk size given to the constructor of the class as
    written (divisor 3), the splitter constructor is called with that chunk
    size, with an overlap equal to the floor of a third of it, and with one
    length function, the given token counter or the default one, which
    therefore measures both.  Every extractor that the constructor returns
    has a splitter configured with these values, and it returns one for
    every positive chunk size; a chunk size that is not positive is refused
    by the splitter with [ValueError]. *)
Theorem overlap_is_third_of_chunk_size :
  forall (size : Z) (token_counter : option (string -> Z)),
  exists overlap : Z,
    3 * overlap <= size < 3 * overlap + 3
    /\ init rt ChunksTabularExtractor size token_counter =
       match RecursiveCharacterTextSplitter size overlap
               match token_counter with Some f => f | None => count_tokens rt end with
       | Ok splitter =>
           Ok ({| class_of := ChunksTabularExtractor; text_splitter := splitter |},
               World [] None)
       | Raise e => Raise e
       end
    /\ (forall (self : Extractor) (w : world),
          init rt ChunksTabularExtractor size token_counter = Ok (self, w) ->
          chunk_size (text_splitter self) = size
          /\ chunk_overlap (text_splitter self) = overlap
          /\ length_function (text_splitter self) =
             match token_counter with Some f => f | None => count_tokens rt end
          /\ chunks_data w = None)
    /\ (0 < size ->
        exists (self : Extractor) (w : world),
          init rt ChunksTabularExtractor size token_counter = Ok (self, w))
    /\ (size <= 0 ->
        exists msg,
          init rt ChunksTabularExtractor size token_counter = Raise (ValueError msg)).
Proof.
  intros size token_counter.
  pose proof (Z.div_mod size 3 ltac:(lia)) as Hd.
  pose proof (Z.mod_pos_bound size 3 ltac:(lia)) as Hb.
  assert (Hinit : init rt ChunksTabularExtractor size token_counter =
                  match RecursiveCharacterTextSplitter size (size / 3)
                          match token_counter with
                          | Some f => f
                          | None => count_tokens rt
                          end with
                  | Ok splitter =>
                      Ok ({| class_of := ChunksTabularExtractor;
                             text_splitter := splitter |}, World [] None)
                  | Raise e => Raise e
                  end).
  { unfold init. change (overlap_factor ChunksTabularExtractor) with 3.
    change (3 =? 0) with false. cbv iota.
    destruct token_counter;
      destruct (RecursiveCharacterTextSplitter size (size / 3) _); reflexivity. }
  exists (size / 3). split; [lia|]. split; [exact Hinit|]. split.
  - intros self w Hok. rewrite Hinit in Hok.
    destruct (RecursiveCharacterTextSplitter size (size / 3) _) as [splitter|e] eqn:Hc;
      [|discriminate].
    inversion Hok; subst. cbn [text_splitter chunks_data].
    destruct (splitter_keeps _ _ _ _ Hc) as [H1 [H2 H3]].
    repeat split; assumption.
  - split.
    + intro Hpos. rewrite Hinit.
      rewrite splitter_accepts by lia. eexists. eexists. reflexivity.
    + intro Hneg. rewrite Hinit.
      destruct (splitter_rejects size (size / 3)
                  match token_counter with Some f => f | None => count_tokens rt end
                  Hneg) as [msg Hmsg].
      rewrite Hmsg. exists msg. reflexivity.
Qed.

(** ** The loop over the windows *)

Lemma last_cons (p d : json) (ps : list json) : last (p :: ps) d = last ps p.
Proof.
  revert p d. induction ps as [|q qs IH]; intros p d; [reflexivity|].
  change (last (p :: q :: qs) d) with (last (q :: qs) d).
  rewrite (IH q d), (IH q p). reflexivity.
Qed.

Lemma extract_calls_cons (chunk : Document) (chunks : list Document)
    (prev : json) (rest : list json) :
  extract_calls rt (chunk :: chunks) (prev :: rest) =
  CallExtract (str_document rt chunk) prev :: extract_calls rt chunks rest.
Proof. reflexivity. Qed.

(** What a chain of successful windows leaves behind. *)
Lemma sequential_facts (self : Extractor) (attributes : attributes_t)
    (prev : json) (chunks : list Document) (w : world) (partials : list json)
    (w1 : world) :
  sequential rt self attributes prev chunks w partials w1 ->
  List.length partials = List.length chunks /\
  (forall acc, chunks_data w = Some acc -> chunks_data w1 = Some (acc ++ partials)%list) /\
  exists new,
    trace w1 = (trace w ++ new)%list /\
    method_calls new = extract_calls rt chunks (prev :: partials) /\
    filter is_merge new = [] /\
    (List.length (invocations new) <= List.length chunks)%nat.
Proof.
  induction 1 as [prev w | prev chunk chunks w partial w1 acc partials w2 He Hcd Hs IH].
  - split; [reflexivity|]. split.
    + intros acc Hacc. rewrite app_nil_r. exact Hacc.
    + exists []. rewrite app_nil_r. simpl. repeat split; solve [reflexivity | lia].
  - destruct IH as [Hlen [Hacc [new [Htr [Hmc [Hmg Hinv]]]]]].
    destruct (extract_frame _ _ _ _ _ _ _ He) as [Hcd1 [new1 [Htr1 [Hmc1 [Hmg1 Hinv1]]]]].
    simpl in Htr, Hacc.
    split; [simpl; rewrite Hlen; reflexivity|]. split.
    + intros acc0 Hacc0. rewrite Hcd1, Hacc0 in Hcd. inversion Hcd; subst.
      rewrite (Hacc _ eq_refl). rewrite <- app_assoc. reflexivity.
    + exists (CallExtract (str_document rt chunk) prev :: new1 ++ new)%list.
      split; [rewrite Htr, Htr1, <- app_assoc; reflexivity|].
      split.
      { rewrite extract_calls_cons.
        change (method_calls (CallExtract (str_document rt chunk) prev :: new1 ++ new))
          with (CallExtract (str_document rt chunk) prev :: method_calls (new1 ++ new)).
        rewrite method_calls_app, Hmc1, Hmc. reflexivity. }
      split.
      { change (filter is_merge (CallExtract (str_document rt chunk) prev :: new1 ++ new))
          with (filter is_merge (new1 ++ new)).
        rewrite filter_app, Hmg1, Hmg. reflexivity. }
      change (invocations (CallExtract (str_document rt chunk) prev :: new1 ++ new))
        with (invocations (new1 ++ new)).
      rewrite invocations_app, length_app. simpl. lia.
Qed.

(** A chain of successful windows is what the loop does on them. *)
Lemma sequential_extract_chunks (self : Extractor) (attributes : attributes_t)
    (prev : json) (done : list Document) (w : world) (partials : list json)
    (w1 : world) :
  sequential rt self attributes prev done w partials w1 ->
  forall more,
    extract_chunks rt self attributes (done ++ more) prev w =
    extract_chunks rt self attributes more (last partials prev) w1.
Proof.
  induction 1 as [prev w | prev chunk chunks w partial w1 acc partials w2 He Hcd Hs IH];
    intro more; [reflexivity|].
  rewrite last_cons. rewrite <- IH.
  simpl. unfold bind at 1. rewrite He.
  unfold bind at 1. unfold append_chunks_data at 1. rewrite Hcd. reflexivity.
Qed.

(** ** [run], once the configuration is present and the splitter answered *)

Lemma run_eq (self : Extractor) (content : string) (attributes : attributes_t)
    (w : world) (sp pt : string) (chunks : list Document) :
  system_prompt (class_of self) = Some sp ->
  prompt_template (class_of self) = Some pt ->
  create_documents rt (text_splitter self) [content] = Ok chunks ->
  run rt self content attributes w =
  let w0 := after_split self content chunks w in
  if (1 <? List.length chunks)%nat then
    match extract_chunks rt self attributes chunks JNull (World (trace w0) (Some [])) with
    | (Ok _, w1) =>
        match chunks_data w1 with
        | Some all_data => merge_all_data rt self all_data attributes w1
        | None => (Raise (TypeError "'NoneType' object is not iterable"), w1)
        end
    | (Raise e, w1) => (Raise e, w1)
    end
  else
    match chunks with
    | [] => (Raise (IndexError "list index out of range"), w0)
    | chunk :: _ => extract rt self (str_document rt chunk) attributes JNull w0
    end.
Proof.
  intros Hsp Hpt Hsplit. unfold run. rewrite Hsp, Hpt.
  unfold bind at 1. unfold emit at 1.
  unfold bind at 1. unfold lift at 1. rewrite Hsplit.
  unfold bind at 1. rewrite print_token_counts_eq.
  rewrite after_split_eq. cbn [trace chunks_data]. cbv zeta.
  destruct (1 <? List.length chunks)%nat.
  - unfold bind at 1. unfold set_chunks_data at 1. cbn [trace chunks_data].
    unfold bind at 1.
    destruct (extract_chunks rt self attributes chunks JNull _) as [[final|e] w1];
      [|reflexivity].
    unfold bind, get_chunks_data. destruct (chunks_data w1); reflexivity.
  - destruct chunks; reflexivity.
Qed.

(** ** Single-window and degenerate runs *)

(** C2. When the splitter returns exactly one window, [run] makes one call
    of [extract], for that window and without previous data, so that the
    prompt template without continuation is filled; the request goes to the
    model once and the parsed answer (or the failure) is what [run] returns.
    The trace of the run holds no call of [merge_all_data], and
    [chunks_data] is not touched. *)
Theorem single_window_run :
  forall (self : Extractor) (content : string) (attributes : attributes_t)
         (w : world) (sp pt : string) (chunk : Document),
    system_prompt (class_of self) = Some sp ->
    prompt_template (class_of self) = Some pt ->
    create_documents rt (text_splitter self) [content] = Ok [chunk] ->
    let markdown := str_document rt chunk in
    let before :=
      (trace w ++ CreateDocuments [content] :: token_count_lines self 0 [chunk]
         ++ [CallExtract markdown JNull])%list in
    run rt self content attributes w =
      match str_format rt pt [("markdown", markdown);
                              ("elements", json_dumps rt (attributes_json attributes))] with
      | Raise e => (Raise e, World before (chunks_data w))
      | Ok human_msg =>
          let messages := [SystemMessage sp; HumanMessage human_msg] in
          (match ainvoke rt (invocations (trace w)) messages with
           | Ok output => parse rt output
           | Raise e => Raise e
           end,
           World (before ++ [Invoke messages]) (chunks_data w))
      end
    /\ method_calls (trace (snd (run rt self content attributes w))) =
       (method_calls (trace w) ++ [CallExtract markdown JNull])%list.
Proof.
  intros self content attributes w sp pt chunk Hsp Hpt Hsplit markdown before.
  assert (Hrun : run rt self content attributes w =
                 extract rt self markdown attributes JNull
                         (after_split self content [chunk] w)).
  { rewrite (run_eq _ _ _ _ _ _ _ Hsp Hpt Hsplit). reflexivity. }
  split.
  - rewrite Hrun, extract_eq, after_split_eq. cbn [trace chunks_data].
    unfold extract_messages, extract_human_msg. cbn [truthy negb].
    rewrite Hpt, Hsp. cbn [format system_message].
    rewrite !invocations_app, invocations_prints. cbn [invocations flat_map app].
    subst before. rewrite ?app_nil_r, <- ?app_assoc.
    destruct (str_format rt pt _) as [h|e]; reflexivity.
  - rewrite Hrun.
    destruct (extract rt self markdown attributes JNull
                      (after_split self content [chunk] w)) as [r w'] eqn:He.
    destruct (extract_frame _ _ _ _ _ _ _ He) as [_ [new [Htr [Hmc _]]]].
    cbn [snd]. rewrite Htr, after_split_eq. cbn [trace].
    rewrite !method_calls_app, method_calls_prints.
    change (method_calls (CallExtract markdown JNull :: new))
      with (CallExtract markdown JNull :: method_calls new).
    rewrite Hmc. cbn [method_calls filter is_method_call app].
    rewrite !app_nil_r. reflexivity.
Qed.

(** C9. When the splitter returns no window at all, [run] does not return an
    empty result: indexing the first chunk raises [IndexError].  Nothing was
    asked of the model and no method of the extractor was entered. *)
Theorem no_window_index_error :
  forall (self : Extractor) (content : string) (attributes : attributes_t)
         (w : world) (sp pt : string),
    system_prompt (class_of self) = Some sp ->
    prompt_template (class_of self) = Some pt ->
    create_documents rt (text_splitter self) [content] = Ok [] ->
    run rt self content attributes w =
      (Raise (IndexError "list index out of range"),
       World (trace w ++ [CreateDocuments [content]]) (chunks_data w))
    /\ invocations (trace (snd (run rt self content attributes w))) =
       invocations (trace w)
    /\ method_calls (trace (snd (run rt self content attributes w))) =
       method_calls (trace w).
Proof.
  intros self content attributes w sp pt Hsp Hpt Hsplit.
  rewrite (run_eq _ _ _ _ _ _ _ Hsp Hpt Hsplit). cbn [List.length Nat.ltb Nat.leb].
  cbv zeta. rewrite after_split_eq. cbn [token_count_lines snd trace].
  rewrite app_nil_r. split; [reflexivity|].
  rewrite invocations_app, method_calls_app. cbn. rewrite !app_nil_r.
  split; reflexivity.
Qed.

(** ** Multi-window runs *)

(** The loop either extracts every window, or stops at the first window whose
    extraction raises. *)
Lemma extract_chunks_cases (self : Extractor) (attributes : attributes_t)
    (chunks : list Document) :
  forall (prev : json) (w : world) (acc : list json),
    chunks_data w = Some acc ->
    (exists partials w1,
        sequential rt self attributes prev chunks w partials w1
        /\ extract_chunks rt self attributes chunks prev w =
           (Ok (last partials prev), w1))
    \/ (exists done chunk rest partials w1 e w2,
          chunks = (done ++ chunk :: rest)%list
          /\ sequential rt self attributes prev done w partials w1
          /\ extract rt self (str_document rt chunk) attributes
                     (last partials prev) w1 = (Raise e, w2)
          /\ extract_chunks rt self attributes chunks prev w = (Raise e, w2)).
Proof.
  induction chunks as [|chunk chunks IH]; intros prev w acc Hacc.
  - left. exists [], w. split; [constructor|reflexivity].
  - destruct (extract rt self (str_document rt chunk) attributes prev w)
      as [[partial|e] w'] eqn:He.
    + destruct (extract_frame _ _ _ _ _ _ _ He) as [Hcd _].
      rewrite Hacc in Hcd.
      assert (Hstep : forall more,
                 extract_chunks rt self attributes (chunk :: more) prev w =
                 extract_chunks rt self attributes more partial
                   (World (trace w') (Some (acc ++ [partial])%list))).
      { intro more. simpl. unfold bind at 1. rewrite He.
        unfold bind at 1. unfold append_chunks_data at 1. rewrite Hcd. reflexivity. }
      destruct (IH partial (World (trace w') (Some (acc ++ [partial])%list))
                   (acc ++ [partial])%list eq_refl)
        as [[partials [w1 [Hs Hrun]]]
           | [done [c [rest [partials [w1 [e [w2 [Hsplit [Hs [Hfail Hrun]]]]]]]]]]].
      * left. exists (partial :: partials), w1. split.
        -- econstructor; [exact He|exact Hcd|exact Hs].
        -- rewrite Hstep, last_cons. exact Hrun.
      * right. exists (chunk :: done), c, rest, (partial :: partials), w1, e, w2.
        split; [rewrite Hsplit; reflexivity|]. split.
        -- econstructor; [exact He|exact Hcd|exact Hs].
        -- rewrite last_cons, Hstep. split; assumption.
    + right. exists [], chunk, chunks, [], w, e, w'.
      split; [reflexivity|]. split; [constructor|]. split; [exact He|].
      simpl. unfold bind at 1. rewrite He. reflexivity.
Qed.

(** Every multi-window run is a chain over its first windows, followed
    either by [merge_all_data] on all partial results or by the failure of
    the next window. *)
Lemma run_multi_window_cases (self : Extractor) (content : string)
    (attributes : attributes_t) (w : world) (sp pt : string)
    (chunks : list Document) :
  system_prompt (class_of self) = Some sp ->
  prompt_template (class_of self) = Some pt ->
  create_documents rt (text_splitter self) [content] = Ok chunks ->
  (1 < List.length chunks)%nat ->
  (exists (partials : list json) (w1 : world),
      sequential rt self attributes JNull chunks
                 (World (trace (after_split self content chunks w)) (Some []))
                 partials w1
      /\ chunks_data w1 = Some partials
      /\ run rt self content attributes w =
         merge_all_data rt self partials attributes w1)
  \/ (exists done chunk rest partials w1 e w2,
        chunks = (done ++ chunk :: rest)%list
        /\ sequential rt self attributes JNull done
                      (World (trace (after_split self content chunks w)) (Some []))
                      partials w1
        /\ extract rt self (str_document rt chunk) attributes
                   (last partials JNull) w1 = (Raise e, w2)
        /\ run rt self content attributes w = (Raise e, w2)).
Proof.
  intros Hsp Hpt Hsplit Hlen.
  rewrite (run_eq _ _ _ _ _ _ _ Hsp Hpt Hsplit). cbv zeta.
  replace (1 <? List.length chunks)%nat with true
    by (symmetry; apply Nat.ltb_lt; exact Hlen).
  destruct (extract_chunks_cases self attributes chunks JNull
              (World (trace (after_split self content chunks w)) (Some []))
              [] eq_refl)
    as [[partials [w1 [Hs Hrun]]]
       | [done [c [rest [partials [w1 [e [w2 [Hcut [Hs [Hfail Hrun]]]]]]]]]]].
  - left. exists partials, w1.
    destruct (sequential_facts _ _ _ _ _ _ _ Hs) as [_ [Hacc _]].
    specialize (Hacc [] eq_refl). cbn [app] in Hacc.
    split; [exact Hs|]. split; [exact Hacc|].
    rewrite Hrun, Hacc. reflexivity.
  - right. exists done, c, rest, partials, w1, e, w2.
    split; [exact Hcut|]. split; [exact Hs|]. split; [exact Hfail|].
    rewrite Hrun. reflexivity.
Qed.

Lemma merge_all_data_frame (self : Extractor) (all_data : list json)
    (attributes : attributes_t) (w : world) (r : result json) (w' : world) :
  merge_all_data rt self all_data attributes w = (r, w') ->
  chunks_data w' = chunks_data w /\
  method_calls (trace w') = (method_calls (trace w) ++ [CallMerge all_data])%list.
Proof.
  rewrite merge_all_data_eq.
  destruct (merge_messages rt self all_data attributes);
    intro H; inversion H; subst; cbn [trace chunks_data];
    rewrite !method_calls_app; cbn; rewrite ?app_nil_r; split; reflexivity.
Qed.

(** The loop only adds events to the trace. *)
Lemma extract_chunks_extends (self : Extractor) (attributes : attributes_t)
    (chunks : list Document) :
  forall (prev : json) (w : world) (r : result json) (w' : world),
    extract_chunks rt self attributes chunks prev w = (r, w') ->
    exists new, trace w' = (trace w ++ new)%list.
Proof.
  induction chunks as [|chunk chunks IH]; intros prev w r w' Hrun.
  - inversion Hrun; subst. exists []. rewrite app_nil_r. reflexivity.
  - simpl in Hrun. unfold bind at 1 in Hrun.
    destruct (extract rt self (str_document rt chunk) attributes prev w)
      as [[partial|e] w1] eqn:He;
      destruct (extract_frame _ _ _ _ _ _ _ He) as [_ [new1 [Htr1 _]]].
    + unfold bind at 1 in Hrun. unfold append_chunks_data at 1 in Hrun.
      destruct (chunks_data w1) as [acc|].
      * destruct (IH _ _ _ _ Hrun) as [new Htr]. cbn [trace] in Htr.
        exists (CallExtract (str_document rt chunk) prev :: new1 ++ new)%list.
        rewrite Htr, Htr1, <- app_assoc. reflexivity.
      * inversion Hrun; subst. eexists. exact Htr1.
    + inversion Hrun; subst. eexists. exact Htr1.
Qed.

(** C5 (amended). When [system_prompt] or [prompt_template] is [None],
    [run] raises [ValueError] in the world it was called in: the splitter
    has not been called, no request was sent to the model, and neither
    [extract] nor [merge_all_data] was entered.  These two attributes are
    all that is checked: when both are present, [run] goes on to call the
    splitter, whatever the attribute schema and the other templates are. *)
Theorem missing_prompt_fails_before_any_call :
  forall (self : Extractor) (content : string) (attributes : attributes_t) (w : world),
    (system_prompt (class_of self) = None \/ prompt_template (class_of self) = None ->
     exists msg, run rt self content attributes w = (Raise (ValueError msg), w))
    /\ (forall sp pt,
          system_prompt (class_of self) = Some sp ->
          prompt_template (class_of self) = Some pt ->
          exists later,
            trace (snd (run rt self content attributes w)) =
            (trace w ++ CreateDocuments [content] :: later)%list).
Proof.
  intros self content attributes w. split.
  - intros [H|H]; unfold run.
    + rewrite H. eexists. reflexivity.
    + rewrite H. destruct (system_prompt (class_of self)); eexists; reflexivity.
  - intros sp pt Hsp Hpt.
    destruct (create_documents rt (text_splitter self) [content]) as [chunks|e] eqn:Hsplit.
    + rewrite (run_eq _ _ _ _ _ _ _ Hsp Hpt Hsplit). cbv zeta.
      pose proof (after_split_eq self content chunks w) as Hw0.
      set (w0 := after_split self content chunks w) in *.
      assert (H0 : trace w0 = (trace w ++ CreateDocuments [content]
                                 :: token_count_lines self 0 chunks)%list).
      { rewrite Hw0. cbn [trace]. rewrite <- app_assoc. reflexivity. }
      assert (Hext : forall new, (trace w0 ++ new)%list =
                       (trace w ++ CreateDocuments [content]
                          :: token_count_lines self 0 chunks ++ new)%list).
      { intro new. rewrite H0, <- app_assoc. reflexivity. }
      destruct (1 <? List.length chunks)%nat.
      * destruct (extract_chunks rt self attributes chunks JNull
                                 (World (trace w0) (Some []))) as [[final|e] w1] eqn:Hloop;
          destruct (extract_chunks_extends _ _ _ _ _ _ _ Hloop) as [new Htr];
          cbn [trace] in Htr.
        -- destruct (chunks_data w1) as [all_data|].
           ++ rewrite merge_all_data_eq.
              destruct (merge_messages rt self all_data attributes);
                cbn [snd trace]; rewrite Htr, <- ?app_assoc, Hext; eexists; reflexivity.
           ++ cbn [snd]. rewrite Htr, Hext. eexists. reflexivity.
        -- cbn [snd]. rewrite Htr, Hext. eexists. reflexivity.
      * destruct chunks as [|chunk chunks'].
        -- cbn [snd]. rewrite H0. eexists. reflexivity.
        -- destruct (extract rt self (str_document rt chunk) attributes JNull w0)
             as [r w1] eqn:He.
           destruct (extract_frame _ _ _ _ _ _ _ He) as [_ [new [Htr _]]].
           cbn [snd]. rewrite Htr, Hext. eexists. reflexivity.
    + unfold run. rewrite Hsp, Hpt.
      unfold bind, emit, lift. cbn [trace chunks_data]. rewrite Hsplit.
      cbn [snd trace]. exists []. reflexivity.
Qed.

(** C3. In every multi-window run the windows are extracted one after the
    other in document order: the first without previous data, each later one
    in the world left by the window before it and with exactly that window's
    partial result as previous data, the results being accumulated in window
    order in [chunks_data].  Either all windows are extracted, and then
    [merge_all_data] is called, once, on the whole list of partial results
    and its outcome is the outcome of [run]; or the chain stops at the first
    window whose extraction raises. *)
Theorem windows_extracted_in_order_then_merged :
  forall (self : Extractor) (content : string) (attributes : attributes_t)
         (w : world) (sp pt : string) (chunks : list Document),
    system_prompt (class_of self) = Some sp ->
    prompt_template (class_of self) = Some pt ->
    create_documents rt (text_splitter self) [content] = Ok chunks ->
    (1 < List.length chunks)%nat ->
    (exists (partials : list json) (w1 : world),
        sequential rt self attributes JNull chunks
                   (World (trace (after_split self content chunks w)) (Some []))
                   partials w1
        /\ List.length partials = List.length chunks
        /\ chunks_data w1 = Some partials
        /\ run rt self content attributes w =
           merge_all_data rt self partials attributes w1
        /\ method_calls (trace (snd (run rt self content attributes w))) =
           (method_calls (trace w) ++ extract_calls rt chunks (JNull :: partials)
              ++ [CallMerge partials])%list)
    \/ (exists done chunk rest partials w1 e w2,
          chunks = (done ++ chunk :: rest)%list
          /\ sequential rt self attributes JNull done
                        (World (trace (after_split self content chunks w)) (Some []))
                        partials w1
          /\ extract rt self (str_document rt chunk) attributes
                     (last partials JNull) w1 = (Raise e, w2)
          /\ run rt self content attributes w = (Raise e, w2)).
Proof.
  intros self content attributes w sp pt chunks Hsp Hpt Hsplit Hlen.
  destruct (run_multi_window_cases self content attributes w sp pt chunks
                Hsp Hpt Hsplit Hlen)
    as [[partials [w1 [Hs [Hcd Hrun]]]] | Hfail]; [left|right; exact Hfail].
  destruct (sequential_facts _ _ _ _ _ _ _ Hs) as [Hl [_ [new [Htr [Hmc _]]]]].
  exists partials, w1. repeat split; try assumption.
  rewrite Hrun.
  destruct (merge_all_data rt self partials attributes w1) as [r w'] eqn:Hmerge.
  destruct (merge_all_data_frame _ _ _ _ _ _ Hmerge) as [_ Hw'].
  cbn [snd]. rewrite Hw', Htr. cbn [trace]. rewrite after_split_eq. cbn [trace].
  rewrite !method_calls_app, method_calls_prints, Hmc. cbn.
  rewrite !app_nil_r, <- app_assoc. reflexivity.
Qed.

(** C4. When, in a multi-window run, the windows before some window were
    extracted and the extraction of that window raises, [run] raises the
    same exception and stops in the world of the failure: the events of the
    run hold one call of [extract] per window up to the failing one, at
    most one request to the model for each of them, and no call of
    [merge_all_data]. *)
Theorem failed_window_aborts_run :
  forall (self : Extractor) (content : string) (attributes : attributes_t)
         (w : world) (sp pt : string) (done : list Document) (chunk : Document)
         (rest : list Document) (partials : list json) (w1 : world)
         (e : exn) (w2 : world),
    system_prompt (class_of self) = Some sp ->
    prompt_template (class_of self) = Some pt ->
    create_documents rt (text_splitter self) [content] = Ok (done ++ chunk :: rest)%list ->
    (1 < List.length (done ++ chunk :: rest))%nat ->
    sequential rt self attributes JNull done
               (World (trace (after_split self content (done ++ chunk :: rest) w))
                      (Some []))
               partials w1 ->
    extract rt self (str_document rt chunk) attributes (last partials JNull) w1 =
      (Raise e, w2) ->
    run rt self content attributes w = (Raise e, w2)
    /\ exists new,
         trace w2 = (trace (after_split self content (done ++ chunk :: rest) w)
                       ++ new)%list
         /\ method_calls new =
            extract_calls rt (done ++ [chunk]) (JNull :: partials)
         /\ filter is_merge new = []
         /\ (List.length (invocations new) <= List.length done + 1)%nat.
Proof.
  intros self content attributes w sp pt done chunk rest partials w1 e w2
         Hsp Hpt Hsplit Hlen Hs He.
  split.
  - rewrite (run_eq _ _ _ _ _ _ _ Hsp Hpt Hsplit). cbv zeta.
    replace (1 <? List.length (done ++ chunk :: rest))%nat with true
      by (symmetry; apply Nat.ltb_lt; exact Hlen).
    rewrite (sequential_extract_chunks _ _ _ _ _ _ _ Hs).
    cbn [extract_chunks]. unfold bind at 1. rewrite He. reflexivity.
  - destruct (sequential_facts _ _ _ _ _ _ _ Hs) as [Hl [_ [new [Htr [Hmc [Hmg Hinv]]]]]].
    destruct (extract_frame _ _ _ _ _ _ _ He) as [_ [new2 [Htr2 [Hmc2 [Hmg2 Hinv2]]]]].
    cbn [trace] in Htr.
    exists (new ++ CallExtract (str_document rt chunk) (last partials JNull) :: new2)%list.
    split; [rewrite Htr2, Htr, <- app_assoc; reflexivity|].
    split.
    { rewrite method_calls_app.
      change (method_calls (CallExtract (str_document rt chunk) (last partials JNull) :: new2))
        with (CallExtract (str_document rt chunk) (last partials JNull) :: method_calls new2).
      rewrite Hmc, Hmc2. unfold extract_calls.
      clear - Hl. revert partials Hl. generalize JNull.
      induction done as [|d ds IH]; intros prev partials Hl.
      - destruct partials; [reflexivity|discriminate].
      - destruct partials as [|p ps]; [discriminate|].
        cbn [app combine map fst snd]. f_equal.
        rewrite last_cons. apply IH. simpl in Hl. lia. }
    split.
    { rewrite filter_app.
      change (filter is_merge (CallExtract (str_document rt chunk) (last partials JNull) :: new2))
        with (filter is_merge new2).
      rewrite Hmg, Hmg2. reflexivity. }
    rewrite invocations_app, length_app.
    change (invocations (CallExtract (str_document rt chunk) (last partials JNull) :: new2))
      with (invocations new2).
    lia.
Qed.

(** ** The attribute [chunks_data] *)

(** C7 (amended). After a multi-window run has returned, [chunks_data] holds
    the partial results of that run, one per window and in window order:
    the results of the chain of extractions that the run went through.
    [run] nevertheless
    never reads what an earlier run left there: from two worlds that differ
    only in [chunks_data] it returns the same outcome and produces the same
    trace. *)
Theorem chunks_data_persists_but_is_never_read :
  forall (self : Extractor) (content : string) (attributes : attributes_t),
    (forall (w : world) (sp pt : string) (chunks : list Document)
            (out : json) (w' : world),
        system_prompt (class_of self) = Some sp ->
        prompt_template (class_of self) = Some pt ->
        create_documents rt (text_splitter self) [content] = Ok chunks ->
        (1 < List.length chunks)%nat ->
        run rt self content attributes w = (Ok out, w') ->
        exists (partials : list json) (w1 : world),
          sequential rt self attributes JNull chunks
                     (World (trace (after_split self content chunks w)) (Some []))
                     partials w1
          /\ List.length partials = List.length chunks
          /\ chunks_data w' = Some partials)
    /\ (forall (tr : list event) (cd1 cd2 : option (list json)),
          fst (run rt self content attributes (World tr cd1)) =
          fst (run rt self content attributes (World tr cd2))
          /\ trace (snd (run rt self content attributes (World tr cd1))) =
             trace (snd (run rt self content attributes (World tr cd2)))).
Proof.
  intros self content attributes. split.
  - intros w sp pt chunks out w' Hsp Hpt Hsplit Hlen Hrun.
    destruct (run_multi_window_cases self content attributes w sp pt chunks
                Hsp Hpt Hsplit Hlen)
      as [[partials [w1 [Hs [Hcd Hmerge]]]]
         | [done [c [rest [partials [w1 [e [w2 [_ [_ [_ Hfail]]]]]]]]]]];
      [|rewrite Hfail in Hrun; discriminate].
    rewrite Hrun in Hmerge. symmetry in Hmerge.
    destruct (sequential_facts _ _ _ _ _ _ _ Hs) as [Hl _].
    destruct (merge_all_data_frame _ _ _ _ _ _ Hmerge) as [Hcd' _].
    exists partials, w1. split; [exact Hs|]. split; [exact Hl|].
    rewrite Hcd', Hcd. reflexivity.
  - intros tr cd1 cd2.
    destruct (system_prompt (class_of self)) as [sp|] eqn:Hsp;
      [|unfold run; rewrite Hsp; split; reflexivity].
    destruct (prompt_template (class_of self)) as [pt|] eqn:Hpt;
      [|unfold run; rewrite Hsp, Hpt; split; reflexivity].
    destruct (create_documents rt (text_splitter self) [content]) as [chunks|e] eqn:Hsplit.
    + rewrite !(run_eq _ _ _ _ _ _ _ Hsp Hpt Hsplit). cbv zeta.
      rewrite !after_split_eq. cbn [trace chunks_data].
      destruct (1 <? List.length chunks)%nat; [split; reflexivity|].
      destruct chunks as [|chunk chunks]; [split; reflexivity|].
      apply extract_chunks_data_irrelevant.
    + unfold run. rewrite Hsp, Hpt.
      unfold bind, emit, lift. cbn [trace chunks_data]. rewrite Hsplit.
      split; reflexivity.
Qed.

(** ** The merge request *)

Lemma string_app_assoc (a b c : string) : ((a ++ b) ++ c)%string = (a ++ b ++ c)%string.
Proof. induction a as [|x a IH]; simpl; [reflexivity|]. rewrite IH. reflexivity. Qed.

Lemma string_app_nil_r (a : string) : (a ++ "")%string = a.
Proof. induction a as [|x a IH]; simpl; [reflexivity|]. rewrite IH. reflexivity. Qed.

Lemma jsons_list_from (all_data : list json) (start : string) :
  fold_left (fun json_list data =>
               json_list ++ ("``` " ++ nl) ++ json_dumps rt data ++ (nl ++ " ```" ++ nl))
            all_data start =
  (start ++ jsons_list rt all_data)%string.
Proof.
  unfold jsons_list. revert start.
  induction all_data as [|data rest IH]; intro start; simpl.
  - rewrite string_app_nil_r. reflexivity.
  - rewrite IH. rewrite (IH (String _ _)). rewrite string_app_assoc. reflexivity.
Qed.

(** C8 (amended). [merge_all_data] sends one request to the model: the system
    message is the merge prompt, the human message is the merge template
    filled with the serialised schema and with the serialisation of every
    partial result, in window order, each between code fences.  What it
    returns is the parsed answer to that request, unchanged.  The rule that
    a present value replaces a missing one reaches the model only as text:
    the merge prompt of the class contains the example on missing values. *)
Theorem merge_returns_model_answer :
  forall (self : Extractor) (all_data : list json) (attributes : attributes_t)
         (w : world) (smp pmt : string),
    system_merge_prompt (class_of self) = Some smp ->
    prompt_merge_template (class_of self) = Some pmt ->
    merge_all_data rt self all_data attributes w =
      match str_format rt pmt [("elements", json_dumps rt (attributes_json attributes));
                               ("jsons_list", jsons_list rt all_data)] with
      | Raise e => (Raise e, World (trace w ++ [CallMerge all_data]) (chunks_data w))
      | Ok human_msg =>
          let messages := [SystemMessage smp; HumanMessage human_msg] in
          (match ainvoke rt (invocations (trace w)) messages with
           | Ok output => parse rt output
           | Raise e => Raise e
           end,
           World (trace w ++ [CallMerge all_data; Invoke messages]) (chunks_data w))
      end
    /\ (forall data rest,
          jsons_list rt (data :: rest) =
          (("``` " ++ nl) ++ json_dumps rt data ++ (nl ++ " ```" ++ nl))
            ++ jsons_list rt rest)%string
    /\ system_merge_prompt ChunksTabularExtractor = Some SYSTEM_MERGE_PROMPT_TEMPLATE
    /\ contains "## Example: merging missing values" SYSTEM_MERGE_PROMPT_TEMPLATE = true.
Proof.
  intros self all_data attributes w smp pmt Hsmp Hpmt. split.
  - rewrite merge_all_data_eq. unfold merge_messages. rewrite Hsmp, Hpmt.
    cbn [format system_message].
    destruct (str_format rt pmt _) as [h|e]; [|reflexivity].
    cbv zeta. rewrite <- app_assoc. reflexivity.
  - split.
    + intros data rest. unfold jsons_list at 1. cbn [fold_left].
      rewrite jsons_list_from. reflexivity.
    + split; [reflexivity|]. vm_compute. reflexivity.
Qed.

End Properties.

(** * The statements on concrete runs *)

(** C10 on a previous result of one record: the continuation branch is
    entered with a list whose length test holds, and the human message
    holds that record. *)
Lemma empty_tail_unreachable_witness :
  truthy (JArr [Stub.row1]) = true
  /\ as_list (JArr [Stub.row1]) = Ok [Stub.row1]
  /\ (0 <? Z.of_nat (List.length [Stub.row1])) = true
  /\ extract_human_msg Stub.rt_ok Stub.extractor "page" Stub.attributes
                       (JArr [Stub.row1]) =
     format Stub.rt_ok (append_prompt_template ChunksTabularExtractor)
            [("markdown", "page");
             ("elements", Stub.dumps (attributes_json Stub.attributes));
             ("previous_data", Stub.dumps (JArr [Stub.row1]))].
Proof.
  split; [reflexivity|]. split; [reflexivity|].
  pose proof (proj1 (proj2 (proj2 (empty_previous_is_fresh_and_empty_tail_unreachable
                                     Stub.rt_ok Stub.extractor "page" Stub.attributes)))
                    (JArr [Stub.row1]) [Stub.row1] eq_refl eq_refl) as H.
  split; [exact (proj1 H)|exact (proj1 (proj2 (proj2 H)))].
Defined.

(** C1 on a previous result of four records: the last two are passed on. *)
Lemma continuation_is_last_third_witness :
  overlap_factor (class_of Stub.extractor) = 3
  /\ [Stub.row1; Stub.row2; Stub.row3; Stub.row4] <> []
  /\ extract_human_msg Stub.rt_ok Stub.extractor "page" Stub.attributes Stub.partial_a =
     format Stub.rt_ok (append_prompt_template ChunksTabularExtractor)
            [("markdown", "page");
             ("elements", Stub.dumps (attributes_json Stub.attributes));
             ("previous_data", Stub.dumps (JArr [Stub.row3; Stub.row4]))].
Proof.
  split; [reflexivity|]. split; [discriminate|].
  exact (proj1 (continuation_is_last_third
                  Stub.rt_ok Stub.extractor "page" Stub.attributes
                  [Stub.row1; Stub.row2; Stub.row3; Stub.row4]
                  eq_refl ltac:(discriminate))).
Defined.

(** C1 as stated fails on a previous result of one record: the cutoff is 1
    and the slice passed on is the whole previous result. *)
Lemma single_record_continuation_is_whole_result :
  cutoff Stub.extractor [Stub.row1] = Ok 1
  /\ slice_from (- 1) [Stub.row1] = [Stub.row1]
  /\ previous_tail Stub.rt_ok Stub.extractor [Stub.row1] =
     Ok (Stub.dumps (JArr [Stub.row1]))
  /\ extract_human_msg Stub.rt_ok Stub.extractor "page" Stub.attributes (JArr [Stub.row1]) =
     format Stub.rt_ok (append_prompt_template ChunksTabularExtractor)
            [("markdown", "page");
             ("elements", Stub.dumps (attributes_json Stub.attributes));
             ("previous_data", Stub.dumps (JArr [Stub.row1]))].
Proof. repeat split; reflexivity. Qed.

(** C2 on a one-window document. *)
Lemma single_window_run_witness :
  system_prompt (class_of Stub.extractor) = Some TABULAR_EXTRACTOR_SYSTEM_PROMPT
  /\ prompt_template (class_of Stub.extractor) = Some SIMPLE_EXTRACTOR_PROMPT_TEMPLATE
  /\ create_documents Stub.rt_empty (text_splitter Stub.extractor) ["page"] =
     Ok [Stub.doc "page"]
  /\ method_calls (trace (snd (run Stub.rt_empty Stub.extractor "page" Stub.attributes
                                   Stub.start))) =
     (method_calls (trace Stub.start)
        ++ [CallExtract (str_document Stub.rt_empty (Stub.doc "page")) JNull])%list.
Proof.
  split; [reflexivity|]. split; [reflexivity|]. split; [reflexivity|].
  exact (proj2 (single_window_run Stub.rt_empty Stub.extractor "page" Stub.attributes
                  Stub.start _ _ (Stub.doc "page") eq_refl eq_refl eq_refl)).
Defined.

(** C9 on the empty document, which the splitter cuts into no window. *)
Lemma no_window_index_error_witness :
  system_prompt (class_of Stub.extractor) = Some TABULAR_EXTRACTOR_SYSTEM_PROMPT
  /\ prompt_template (class_of Stub.extractor) = Some SIMPLE_EXTRACTOR_PROMPT_TEMPLATE
  /\ create_documents Stub.rt_ok (text_splitter Stub.extractor) [""] = Ok []
  /\ run Stub.rt_ok Stub.extractor "" Stub.attributes Stub.start =
     (Raise (IndexError "list index out of range"),
      World (trace Stub.start ++ [CreateDocuments [""]]) (chunks_data Stub.start)).
Proof.
  split; [reflexivity|]. split; [reflexivity|]. split; [reflexivity|].
  exact (proj1 (no_window_index_error Stub.rt_ok Stub.extractor "" Stub.attributes
                  Stub.start _ _ eq_refl eq_refl eq_refl)).
Defined.

(** C6 on the default chunk size. *)
Lemma overlap_is_third_witness :
  0 < 100000
  /\ exists (self : Extractor) (w : world),
       init Stub.rt_ok ChunksTabularExtractor 100000 None = Ok (self, w)
       /\ chunk_size (text_splitter self) = 100000
       /\ chunk_overlap (text_splitter self) = 33333.
Proof.
  split; [lia|].
  destruct (overlap_is_third_of_chunk_size Stub.rt_ok 100000 None)
    as [overlap [Hfloor [_ [Hkeeps [Hpos _]]]]].
  destruct (Hpos ltac:(lia)) as [self [w Hok]].
  destruct (Hkeeps self w Hok) as [Hsize [Hoverlap _]].
  exists self, w. split; [exact Hok|]. split; [exact Hsize|].
  rewrite Hoverlap. lia.
Defined.

(** C5 (amended) on an extractor without system prompt, and on the class as
    written with an empty schema. *)
Lemma missing_prompt_witness :
  (system_prompt (class_of Stub.no_system_prompt) = None
   \/ prompt_template (class_of Stub.no_system_prompt) = None)
  /\ (exists msg,
        run Stub.rt_ok Stub.no_system_prompt "first|second" Stub.attributes Stub.start =
        (Raise (ValueError msg), Stub.start))
  /\ system_prompt (class_of Stub.extractor) = Some TABULAR_EXTRACTOR_SYSTEM_PROMPT
  /\ prompt_template (class_of Stub.extractor) = Some SIMPLE_EXTRACTOR_PROMPT_TEMPLATE
  /\ exists later,
       trace (snd (run Stub.rt_empty Stub.extractor "page" [] Stub.start)) =
       (trace Stub.start ++ CreateDocuments ["page"] :: later)%list.
Proof.
  split; [left; reflexivity|]. split.
  - exact (proj1 (missing_prompt_fails_before_any_call Stub.rt_ok Stub.no_system_prompt
                    "first|second" Stub.attributes Stub.start) (or_introl eq_refl)).
  - split; [reflexivity|]. split; [reflexivity|].
    exact (proj2 (missing_prompt_fails_before_any_call Stub.rt_empty Stub.extractor
                    "page" [] Stub.start) _ _ eq_refl eq_refl).
Defined.

(** C5 as stated fails twice.  With an empty attribute schema [run] goes on
    to ask the model and returns its answer.  Without the continuation
    template, which the second window needs, [run] fails only after the
    first window was sent to the model, and not with [ValueError]. *)
Lemma absent_schema_or_append_template_reaches_model :
  (fst (run Stub.rt_empty Stub.extractor "page" [] Stub.start) = Ok (JArr [])
   /\ List.length (invocations (trace (snd (run Stub.rt_empty Stub.extractor "page" []
                                                Stub.start)))) = 1%nat)
  /\ (append_prompt_template (class_of Stub.no_append_template) = None
      /\ fst (run Stub.rt_ok Stub.no_append_template "first|second" Stub.attributes
                  Stub.start) =
         Raise (AttributeError "'NoneType' object has no attribute 'format'")
      /\ List.length (invocations (trace (snd (run Stub.rt_ok Stub.no_append_template
                                                   "first|second" Stub.attributes
                                                   Stub.start)))) = 1%nat).
Proof. repeat split; vm_compute; reflexivity. Qed.

(** C3 on a two-window document whose windows are both extracted. *)
Lemma windows_in_order_witness :
  system_prompt (class_of Stub.extractor) = Some TABULAR_EXTRACTOR_SYSTEM_PROMPT
  /\ prompt_template (class_of Stub.extractor) = Some SIMPLE_EXTRACTOR_PROMPT_TEMPLATE
  /\ create_documents Stub.rt_ok (text_splitter Stub.extractor) ["first|second"] =
     Ok [Stub.doc "first"; Stub.doc "second"]
  /\ (1 < List.length [Stub.doc "first"; Stub.doc "second"])%nat
  /\ exists (partials : list json) (w1 : world),
       sequential Stub.rt_ok Stub.extractor Stub.attributes JNull
                  [Stub.doc "first"; Stub.doc "second"]
                  (World (trace (after_split Stub.extractor "first|second"
                                   [Stub.doc "first"; Stub.doc "second"] Stub.start))
                         (Some []))
                  partials w1
       /\ List.length partials = 2%nat
       /\ chunks_data w1 = Some partials
       /\ run Stub.rt_ok Stub.extractor "first|second" Stub.attributes Stub.start =
          merge_all_data Stub.rt_ok Stub.extractor partials Stub.attributes w1
       /\ method_calls (trace (snd (run Stub.rt_ok Stub.extractor "first|second"
                                       Stub.attributes Stub.start))) =
          (method_calls (trace Stub.start)
             ++ extract_calls Stub.rt_ok [Stub.doc "first"; Stub.doc "second"]
                              (JNull :: partials)
             ++ [CallMerge partials])%list.
Proof.
  split; [reflexivity|]. split; [reflexivity|]. split; [reflexivity|].
  split; [simpl; lia|].
  destruct (windows_extracted_in_order_then_merged
              Stub.rt_ok Stub.extractor "first|second" Stub.attributes Stub.start
              _ _ [Stub.doc "first"; Stub.doc "second"]
              eq_refl eq_refl eq_refl ltac:(simpl; lia))
    as [Hall | [done [chunk [rest [partials [w1 [e [w2 [_ [_ [_ Hfail]]]]]]]]]]].
  - exact Hall.
  - exfalso.
    assert (Hok : fst (run Stub.rt_ok Stub.extractor "first|second" Stub.attributes
                           Stub.start) = Ok Stub.merged_ab)
      by (vm_compute; reflexivity).
    rewrite Hfail in Hok. discriminate Hok.
Defined.

(** C4 on three windows, the model failing on the second. *)
Lemma failed_window_witness :
  system_prompt (class_of Stub.extractor) = Some TABULAR_EXTRACTOR_SYSTEM_PROMPT
  /\ prompt_template (class_of Stub.extractor) = Some SIMPLE_EXTRACTOR_PROMPT_TEMPLATE
  /\ create_documents Stub.rt_fail (text_splitter Stub.extractor) ["one|two|three"] =
     Ok ([Stub.doc "one"] ++ Stub.doc "two" :: [Stub.doc "three"])%list
  /\ sequential Stub.rt_fail Stub.extractor Stub.attributes JNull [Stub.doc "one"]
                Stub.w_split [Stub.partial_a] Stub.w_acc
  /\ extract Stub.rt_fail Stub.extractor (str_document Stub.rt_fail (Stub.doc "two"))
             Stub.attributes (last [Stub.partial_a] JNull) Stub.w_acc =
     (Raise Stub.boom, Stub.w_two)
  /\ run Stub.rt_fail Stub.extractor "one|two|three" Stub.attributes Stub.start =
     (Raise Stub.boom, Stub.w_two).
Proof.
  assert (Hs : sequential Stub.rt_fail Stub.extractor Stub.attributes JNull
                 [Stub.doc "one"] Stub.w_split [Stub.partial_a] Stub.w_acc).
  { apply (sequential_next Stub.rt_fail Stub.extractor Stub.attributes JNull
             (Stub.doc "one") [] Stub.w_split Stub.partial_a Stub.w_one [] [] Stub.w_acc).
    - vm_compute. reflexivity.
    - vm_compute. reflexivity.
    - apply sequential_done. }
  assert (He : extract Stub.rt_fail Stub.extractor
                 (str_document Stub.rt_fail (Stub.doc "two"))
                 Stub.attributes (last [Stub.partial_a] JNull) Stub.w_acc =
               (Raise Stub.boom, Stub.w_two)).
  { vm_compute. reflexivity. }
  split; [reflexivity|]. split; [reflexivity|]. split; [reflexivity|].
  split; [exact Hs|]. split; [exact He|].
  exact (proj1 (failed_window_aborts_run
                  Stub.rt_fail Stub.extractor "one|two|three" Stub.attributes Stub.start
                  _ _ [Stub.doc "one"] (Stub.doc "two") [Stub.doc "three"]
                  [Stub.partial_a] Stub.w_acc Stub.boom Stub.w_two
                  eq_refl eq_refl eq_refl ltac:(simpl; lia) Hs He)).
Defined.

(** C7 (amended) on a two-window document, and on two worlds that differ in
    [chunks_data]. *)
Lemma chunks_data_witness :
  system_prompt (class_of Stub.extractor) = Some TABULAR_EXTRACTOR_SYSTEM_PROMPT
  /\ prompt_template (class_of Stub.extractor) = Some SIMPLE_EXTRACTOR_PROMPT_TEMPLATE
  /\ create_documents Stub.rt_ok (text_splitter Stub.extractor) ["first|second"] =
     Ok [Stub.doc "first"; Stub.doc "second"]
  /\ run Stub.rt_ok Stub.extractor "first|second" Stub.attributes Stub.start =
     (Ok Stub.merged_ab,
      snd (run Stub.rt_ok Stub.extractor "first|second" Stub.attributes Stub.start))
  /\ (exists w1,
        sequential Stub.rt_ok Stub.extractor Stub.attributes JNull
                   [Stub.doc "first"; Stub.doc "second"]
                   (World (trace (after_split Stub.extractor "first|second"
                                    [Stub.doc "first"; Stub.doc "second"] Stub.start))
                          (Some []))
                   [Stub.partial_a; Stub.partial_b] w1)
  /\ chunks_data (snd (run Stub.rt_ok Stub.extractor "first|second" Stub.attributes
                           Stub.start)) = Some [Stub.partial_a; Stub.partial_b]
  /\ fst (run Stub.rt_ok Stub.extractor "first|second" Stub.attributes (World [] None)) =
     fst (run Stub.rt_ok Stub.extractor "first|second" Stub.attributes
              (World [] (Some [Stub.partial_b]))).
Proof.
  split; [reflexivity|]. split; [reflexivity|]. split; [reflexivity|].
  split; [vm_compute; reflexivity|].
  destruct (proj1 (chunks_data_persists_but_is_never_read
                     Stub.rt_ok Stub.extractor "first|second" Stub.attributes)
                  Stub.start _ _ [Stub.doc "first"; Stub.doc "second"] Stub.merged_ab
                  (snd (run Stub.rt_ok Stub.extractor "first|second" Stub.attributes
                            Stub.start))
                  eq_refl eq_refl eq_refl ltac:(simpl; lia)
                  ltac:(vm_compute; reflexivity))
    as [partials [w1 [Hs [_ Hcd]]]].
  assert (Hc : chunks_data (snd (run Stub.rt_ok Stub.extractor "first|second"
                                     Stub.attributes Stub.start)) =
               Some [Stub.partial_a; Stub.partial_b])
    by (vm_compute; reflexivity).
  assert (Hp : partials = [Stub.partial_a; Stub.partial_b]) by congruence.
  subst partials.
  split; [exists w1; exact Hs|]. split; [exact Hcd|].
  exact (proj1 (proj2 (chunks_data_persists_but_is_never_read
                         Stub.rt_ok Stub.extractor "first|second" Stub.attributes)
                      [] None (Some [Stub.partial_b]))).
Defined.

(** C7 as stated fails: on an extractor whose [chunks_data] is [None], a
    two-window run returns and leaves both partial results in it. *)
Lemma partial_results_outlive_the_run :
  chunks_data Stub.start = None
  /\ fst (run Stub.rt_ok Stub.extractor "first|second" Stub.attributes Stub.start) =
     Ok Stub.merged_ab
  /\ chunks_data (snd (run Stub.rt_ok Stub.extractor "first|second" Stub.attributes
                           Stub.start)) =
     Some [Stub.partial_a; Stub.partial_b].
Proof. repeat split; vm_compute; reflexivity. Qed.

(** C8 (amended) on the two partial results of the examples. *)
Lemma merge_request_witness :
  system_merge_prompt (class_of Stub.extractor) = Some SYSTEM_MERGE_PROMPT_TEMPLATE
  /\ prompt_merge_template (class_of Stub.extractor) = Some EXTRACTOR_MERGE_PROMPT_TEMPLATE
  /\ merge_all_data Stub.rt_ok Stub.extractor [Stub.partial_a; Stub.partial_b]
                    Stub.attributes Stub.start =
     match str_format Stub.rt_ok EXTRACTOR_MERGE_PROMPT_TEMPLATE
             [("elements", json_dumps Stub.rt_ok (attributes_json Stub.attributes));
              ("jsons_list", jsons_list Stub.rt_ok [Stub.partial_a; Stub.partial_b])] with
     | Raise e =>
         (Raise e,
          World (trace Stub.start ++ [CallMerge [Stub.partial_a; Stub.partial_b]])
                (chunks_data Stub.start))
     | Ok human_msg =>
         let messages := [SystemMessage SYSTEM_MERGE_PROMPT_TEMPLATE;
                          HumanMessage human_msg] in
         (match ainvoke Stub.rt_ok (invocations (trace Stub.start)) messages with
          | Ok output => parse Stub.rt_ok output
          | Raise e => Raise e
          end,
          World (trace Stub.start
                   ++ [CallMerge [Stub.partial_a; Stub.partial_b]; Invoke messages])
                (chunks_data Stub.start))
     end.
Proof.
  split; [reflexivity|]. split; [reflexivity|].
  exact (proj1 (merge_returns_model_answer
                  Stub.rt_ok Stub.extractor [Stub.partial_a; Stub.partial_b]
                  Stub.attributes Stub.start _ _ eq_refl eq_refl)).
Defined.

(** C8 as stated fails: the two partial results disagree on the price of
    "third element", null in the first and "400" in the second; the model
    answers the merge request with the null price, and that answer is the
    result of [run]. *)
Lemma merged_result_may_keep_null :
  chunks_data (snd (run Stub.rt_null Stub.extractor "first|second" Stub.attributes
                        Stub.start)) =
    Some [Stub.partial_a; Stub.partial_b]
  /\ fst (run Stub.rt_null Stub.extractor "first|second" Stub.attributes Stub.start) =
     Ok Stub.merged_null
  /\ ~ missing_value_precedence "name" [Stub.partial_a; Stub.partial_b] Stub.merged_null.
Proof.
  split; [vm_compute; reflexivity|]. split; [vm_compute; reflexivity|].
  intro H.
  specialize (H Stub.partial_a Stub.partial_b Stub.row4 Stub.row4' "price" (JStr "400")).
  assert (Hprice : field "price" Stub.row4 = Some (JStr "400")).
  { apply H.
    - left; reflexivity.
    - right; left; reflexivity.
    - simpl. tauto.
    - simpl. tauto.
    - split; [discriminate|reflexivity].
    - reflexivity.
    - reflexivity.
    - discriminate.
    - simpl. tauto.
    - split; [discriminate|reflexivity]. }
  discriminate Hprice.
Qed.

(** * Further properties of the code *)

Section MoreProperties.

Variable rt : Runtime.

(** ** The continuation tail in general *)

Lemma nonempty_length (l : list json) : l <> [] -> (1 <= List.length l)%nat.
Proof. destruct l; [contradiction|simpl; lia]. Qed.

(** The cutoff for a positive divisor. *)
Lemma cutoff_positive (self : Extractor) (l : list json) :
  0 < overlap_factor (class_of self) -> l <> [] ->
  exists c : nat,
    cutoff self l = Ok (Z.of_nat c)
    /\ (1 <= c <= List.length l)%nat
    /\ overlap_factor (class_of self) * (Z.of_nat c - 1) < Z.of_nat (List.length l)
         <= overlap_factor (class_of self) * Z.of_nat c.
Proof.
  intros Hd Hl. pose proof (nonempty_length l Hl) as HL.
  unfold cutoff, ceil_div.
  replace (overlap_factor (class_of self) =? 0) with false
    by (symmetry; apply Z.eqb_neq; lia).
  set (d := overlap_factor (class_of self)) in *.
  set (L := Z.of_nat (List.length l)) in *.
  pose proof (Z.div_mod (- L) d ltac:(lia)) as Hdm.
  pose proof (Z.mod_pos_bound (- L) d Hd) as Hb.
  generalize dependent (- L / d). intros q Hdm.
  generalize dependent ((- L) mod d). intros r Hb Hdm.
  assert (Hq : 1 <= - q) by nia.
  assert (Hup : - q <= L) by nia.
  exists (Z.to_nat (- q)).
  rewrite Z2Nat.id by lia.
  split; [f_equal; lia|]. split; [subst L; lia|]. nia.
Qed.

(** The human message on the continuation branch, whatever the value was
    before it was turned into a list. *)
Lemma human_msg_continuation (self : Extractor) (markdown : string)
    (attributes : attributes_t) (v : json) (l : list json) (c : nat) :
  truthy v = true -> as_list v = Ok l ->
  cutoff self l = Ok (Z.of_nat c) -> (1 <= c)%nat ->
  extract_human_msg rt self markdown attributes v =
  format rt (append_prompt_template (class_of self))
         [("markdown", markdown);
          ("elements", json_dumps rt (attributes_json attributes));
          ("previous_data", json_dumps rt (JArr (last_n c l)))].
Proof.
  intros Ht Hl Hc Hc1. unfold extract_human_msg. rewrite Ht, Hl.
  cbn [negb]. unfold previous_tail.
  rewrite (length_pos_test l (truthy_as_list_nonempty v l Ht Hl)), Hc.
  rewrite (slice_from_last_n c l Hc1). reflexivity.
Qed.

Lemma last_n_length (c : nat) (l : list json) :
  (c <= List.length l)%nat -> List.length (last_n c l) = c.
Proof. intro H. unfold last_n. rewrite length_skipn. lia. Qed.

(** X1. When the previous answer is not a list, the tail is taken of its
    keys (a non-empty object) or of its characters (a non-empty string, one
    element per code point): with the divisor 3, the continuation holds the
    last max(1, ceil(n / 3)) of the n keys, and none of the values. *)
Theorem continuation_of_object_is_tail_of_keys :
  forall (self : Extractor) (markdown : string) (attributes : attributes_t)
         (members : list (string * json)),
    overlap_factor (class_of self) = 3 -> members <> [] ->
    let keys := map (fun kv => JStr (fst kv)) members in
    let k := Nat.max 1 ((List.length members + 2) / 3) in
    extract_human_msg rt self markdown attributes (JObj members) =
      format rt (append_prompt_template (class_of self))
             [("markdown", markdown);
              ("elements", json_dumps rt (attributes_json attributes));
              ("previous_data", json_dumps rt (JArr (last_n k keys)))]
    /\ List.length (last_n k keys) = k
    /\ (forall s, s <> EmptyString ->
          let chars := map JStr (code_points s) in
          extract_human_msg rt self markdown attributes (JStr s) =
            format rt (append_prompt_template (class_of self))
                   [("markdown", markdown);
                    ("elements", json_dumps rt (attributes_json attributes));
                    ("previous_data",
                     json_dumps rt
                       (JArr (last_n (Nat.max 1 ((List.length chars + 2) / 3)) chars)))]).
Proof.
  intros self markdown attributes members H3 Hm keys k.
  assert (Hkeys : keys <> []) by (subst keys; destruct members; [contradiction|discriminate]).
  assert (Hlen : List.length keys = List.length members) by (subst keys; apply length_map).
  split.
  - apply human_msg_continuation.
    + destruct members; [contradiction|reflexivity].
    + reflexivity.
    + subst k. rewrite <- Hlen. apply cutoff_three; assumption.
    + subst k. lia.
  - split.
    + apply last_n_length. rewrite Hlen. subst k.
      pose proof (nonempty_length keys Hkeys) as HL. rewrite Hlen in HL.
      pose proof (Nat.div_mod_eq (List.length members + 2) 3).
      pose proof (Nat.mod_upper_bound (List.length members + 2) 3 ltac:(lia)). lia.
    + intros s Hs chars.
      assert (Hchars : chars <> []).
      { subst chars. intro Hnil. apply map_eq_nil in Hnil.
        exact (code_points_nonempty s Hs Hnil). }
      apply human_msg_continuation.
      * destruct s; [contradiction|reflexivity].
      * reflexivity.
      * apply cutoff_three; assumption.
      * lia.
Qed.

(** X2. When the previous answer is a number or a boolean that Python takes
    as true, [extract] raises [TypeError] while building the request: the
    model is not asked. *)
Theorem scalar_previous_raises_type_error :
  forall (self : Extractor) (markdown : string) (attributes : attributes_t)
         (v : json) (w : world),
    match v with JBool _ | JInt _ | JFloat _ => True | _ => False end ->
    truthy v = true ->
    exists msg,
      extract rt self markdown attributes v w =
      (Raise (TypeError msg),
       World (trace w ++ [CallExtract markdown v]) (chunks_data w)).
Proof.
  intros self markdown attributes v w Hscalar Ht.
  rewrite extract_eq. unfold extract_messages, extract_human_msg. rewrite Ht.
  cbn [negb].
  destruct v; try contradiction; cbn [as_list py_list]; eexists; reflexivity.
Qed.

(** X3. Every previous answer that Python takes as false (None, an empty
    list, object or string, zero, False) leads to the request of a first
    window: same messages, same outcome, same requests to the model. *)
Theorem falsy_previous_is_fresh :
  forall (self : Extractor) (markdown : string) (attributes : attributes_t)
         (v : json) (w : world),
    truthy v = false ->
    extract_messages rt self markdown attributes v =
      extract_messages rt self markdown attributes JNull
    /\ fst (extract rt self markdown attributes v w) =
       fst (extract rt self markdown attributes JNull w)
    /\ invocations (trace (snd (extract rt self markdown attributes v w))) =
       invocations (trace (snd (extract rt self markdown attributes JNull w))).
Proof.
  intros self markdown attributes v w Hf.
  assert (Hm : extract_messages rt self markdown attributes v =
               extract_messages rt self markdown attributes JNull).
  { unfold extract_messages, extract_human_msg. rewrite Hf. reflexivity. }
  split; [exact Hm|]. rewrite !extract_eq, Hm.
  destruct (extract_messages rt self markdown attributes JNull);
    cbn [fst snd trace]; split; try reflexivity;
    rewrite !invocations_app; reflexivity.
Qed.

(** X4. For every positive divisor d and every non-empty previous list of
    length L, the continuation holds the last c records, where c is the
    ceiling of L / d: it is at least one record and never more than the
    list has. *)
Theorem continuation_for_positive_divisor :
  forall (self : Extractor) (markdown : string) (attributes : attributes_t)
         (l : list json),
    0 < overlap_factor (class_of self) -> l <> [] ->
    exists c : nat,
      (1 <= c <= List.length l)%nat
      /\ overlap_factor (class_of self) * (Z.of_nat c - 1) < Z.of_nat (List.length l)
           <= overlap_factor (class_of self) * Z.of_nat c
      /\ List.length (last_n c l) = c
      /\ extract_human_msg rt self markdown attributes (JArr l) =
         format rt (append_prompt_template (class_of self))
                [("markdown", markdown);
                 ("elements", json_dumps rt (attributes_json attributes));
                 ("previous_data", json_dumps rt (JArr (last_n c l)))].
Proof.
  intros self markdown attributes l Hd Hl.
  destruct (cutoff_positive self l Hd Hl) as [c [Hc [Hbounds Hceil]]].
  exists c. split; [exact Hbounds|]. split; [exact Hceil|]. split.
  - apply last_n_length. lia.
  - apply (human_msg_continuation self markdown attributes (JArr l) l c).
    + destruct l; [contradiction|reflexivity].
    + reflexivity.
    + exact Hc.
    + lia.
Qed.

(** X5. With a negative divisor the cutoff is 1: the continuation holds the
    last record of the previous list and nothing else. *)
Theorem continuation_for_negative_divisor :
  forall (self : Extractor) (markdown : string) (attributes : attributes_t)
         (l : list json),
    overlap_factor (class_of self) < 0 -> l <> [] ->
    cutoff self l = Ok 1
    /\ last_n 1 l = [last l JNull]
    /\ extract_human_msg rt self markdown attributes (JArr l) =
       format rt (append_prompt_template (class_of self))
              [("markdown", markdown);
               ("elements", json_dumps rt (attributes_json attributes));
               ("previous_data", json_dumps rt (JArr [last l JNull]))].
Proof.
  intros self markdown attributes l Hd Hl.
  pose proof (nonempty_length l Hl) as HL.
  assert (Hc : cutoff self l = Ok 1).
  { unfold cutoff, ceil_div.
    replace (overlap_factor (class_of self) =? 0) with false
      by (symmetry; apply Z.eqb_neq; lia).
    f_equal.
    pose proof (Z.div_mod (- Z.of_nat (List.length l)) (overlap_factor (class_of self))
                  ltac:(lia)) as Hdm.
    pose proof (Z.mod_neg_bound (- Z.of_nat (List.length l))
                  (overlap_factor (class_of self)) Hd) as Hb.
    generalize dependent (- Z.of_nat (List.length l) / overlap_factor (class_of self)).
    intros q Hdm.
    generalize dependent ((- Z.of_nat (List.length l)) mod overlap_factor (class_of self)).
    intros r Hb Hdm.
    assert (0 <= q) by nia. lia. }
  assert (Hlast : last_n 1 l = [last l JNull]).
  { unfold last_n. clear - Hl. induction l as [|x l IH]; [contradiction|].
    destruct l as [|y l']; [reflexivity|].
    specialize (IH ltac:(discriminate)).
    change (last (x :: y :: l') JNull) with (last (y :: l') JNull).
    rewrite <- IH. cbn [List.length].
    replace (S (S (List.length l')) - 1)%nat with (S (List.length l')) by lia.
    replace (S (List.length l') - 1)%nat with (List.length l') by lia.
    reflexivity. }
  split; [exact Hc|]. split; [exact Hlast|].
  rewrite <- Hlast.
  apply (human_msg_continuation self markdown attributes (JArr l) l 1%nat).
  - destruct l; [contradiction|reflexivity].
  - reflexivity.
  - exact Hc.
  - lia.
Qed.
(** X6. With the divisor 0 nothing can be built: the constructor raises
    [ZeroDivisionError], and if the divisor becomes 0 afterwards, [extract]
    raises it on every previous answer that reaches the continuation
    branch, before the model is asked. *)
Theorem zero_divisor_raises :
  forall (self : Extractor) (markdown : string) (attributes : attributes_t)
         (v : json) (l : list json) (w : world) (size : Z)
         (token_counter : option (string -> Z)),
    overlap_factor (class_of self) = 0 ->
    truthy v = true -> as_list v = Ok l ->
    (exists msg,
        extract rt self markdown attributes v w =
        (Raise (ZeroDivisionError msg),
         World (trace w ++ [CallExtract markdown v]) (chunks_data w)))
    /\ (exists msg,
          init rt (class_of self) size token_counter = Raise (ZeroDivisionError msg)).
Proof.
  intros self markdown attributes v l w size token_counter H0 Ht Hl. split.
  - rewrite extract_eq. unfold extract_messages, extract_human_msg.
    rewrite Ht, Hl. cbn [negb]. unfold previous_tail.
    rewrite (length_pos_test l (truthy_as_list_nonempty v l Ht Hl)).
    unfold cutoff. rewrite H0. eexists. reflexivity.
  - unfold init. rewrite H0. eexists. reflexivity.
Qed.

(** X7. For a divisor of at least 1 the constructor succeeds exactly on the
    positive chunk sizes.  The overlap it then configures is the floor of
    the chunk size over the divisor: it lies between 0 and the chunk size,
    so that the checks of the splitter pass, and it is smaller than the
    chunk size when the divisor is at least 2.  A chunk size that is not
    positive gives the [ValueError] of the splitter. *)
Theorem overlap_within_chunk_size :
  forall (cls : ExtractorClass) (size : Z) (token_counter : option (string -> Z)),
    1 <= overlap_factor cls ->
    (0 < size ->
     exists (self : Extractor) (w : world),
       init rt cls size token_counter = Ok (self, w)
       /\ class_of self = cls
       /\ chunk_size (text_splitter self) = size
       /\ 0 <= chunk_overlap (text_splitter self) <= chunk_size (text_splitter self)
       /\ overlap_factor cls * chunk_overlap (text_splitter self) <= size
            < overlap_factor cls * chunk_overlap (text_splitter self) + overlap_factor cls
       /\ (2 <= overlap_factor cls ->
           chunk_overlap (text_splitter self) < chunk_size (text_splitter self)))
    /\ (size <= 0 ->
        exists msg, init rt cls size token_counter = Raise (ValueError msg)).
Proof.
  intros cls size token_counter Hd. unfold init.
  replace (overlap_factor cls =? 0) with false by (symmetry; apply Z.eqb_neq; lia).
  split.
  - intro Hs.
    pose proof (Z.div_mod size (overlap_factor cls) ltac:(lia)) as Hdm.
    pose proof (Z.mod_pos_bound size (overlap_factor cls) ltac:(lia)) as Hb.
    assert (Hq : 0 <= size / overlap_factor cls <= size).
    { generalize dependent (size / overlap_factor cls). intros q Hdm.
      generalize dependent (size mod overlap_factor cls). intros r Hb Hdm.
      assert (0 <= q) by nia. nia. }
    rewrite splitter_accepts by lia.
    eexists. eexists. split; [reflexivity|].
    cbn [class_of text_splitter chunk_size chunk_overlap].
    split; [reflexivity|]. split; [reflexivity|]. split; [exact Hq|].
    generalize dependent (size / overlap_factor cls). intros q Hdm Hq.
    generalize dependent (size mod overlap_factor cls). intros r Hb Hdm.
    split; [nia|]. intro H2. nia.
  - intro Hs.
    destruct (splitter_rejects size (size / overlap_factor cls)
                match token_counter with Some f => f | None => count_tokens rt end
                Hs) as [msg Hmsg].
    rewrite Hmsg. exists msg. reflexivity.
Qed.

(** ** The attribute [append_system_prompt] *)

Lemma token_count_lines_append_system_prompt (v : option string) (self : Extractor)
    (chunks : list Document) :
  forall i, token_count_lines (with_append_system_prompt v self) i chunks =
            token_count_lines self i chunks.
Proof.
  induction chunks as [|c cs IH]; intro i; [reflexivity|].
  cbn [token_count_lines]. rewrite IH. reflexivity.
Qed.

Lemma extract_chunks_append_system_prompt (v : option string) (self : Extractor)
    (attributes : attributes_t) (chunks : list Document) :
  forall prev w,
    extract_chunks rt (with_append_system_prompt v self) attributes chunks prev w =
    extract_chunks rt self attributes chunks prev w.
Proof.
  induction chunks as [|c cs IH]; intros prev w; [reflexivity|].
  cbn [extract_chunks]. unfold bind at 1 3.
  change (extract rt (with_append_system_prompt v self) (str_document rt c)
                  attributes prev w)
    with (extract rt self (str_document rt c) attributes prev w).
  destruct (extract rt self (str_document rt c) attributes prev w) as [[p|e] w1];
    [|reflexivity].
  unfold bind. destruct (append_chunks_data p w1) as [[u|e] w2]; [|reflexivity].
  apply IH.
Qed.

(** X8. The class attribute [append_system_prompt] is never read: [run]
    behaves the same whatever its value, in outcome and in every event. *)
Theorem append_system_prompt_is_never_used :
  forall (v : option string) (self : Extractor) (content : string)
         (attributes : attributes_t) (w : world),
    run rt (with_append_system_prompt v self) content attributes w =
    run rt self content attributes w.
Proof.
  intros v self content attributes w.
  destruct (system_prompt (class_of self)) as [sp|] eqn:Hsp;
    [|unfold run; cbn [with_append_system_prompt class_of system_prompt];
      rewrite Hsp; reflexivity].
  destruct (prompt_template (class_of self)) as [pt|] eqn:Hpt;
    [|unfold run; cbn [with_append_system_prompt class_of system_prompt prompt_template];
      rewrite Hsp, Hpt; reflexivity].
  destruct (create_documents rt (text_splitter self) [content]) as [chunks|e] eqn:Hsplit.
  - rewrite (run_eq rt (with_append_system_prompt v self) content attributes w sp pt chunks
               Hsp Hpt Hsplit).
    rewrite (run_eq rt self content attributes w sp pt chunks Hsp Hpt Hsplit).
    cbv zeta. rewrite !after_split_eq, token_count_lines_append_system_prompt.
    cbn [trace chunks_data].
    destruct (1 <? List.length chunks)%nat.
    + rewrite extract_chunks_append_system_prompt. reflexivity.
    + destruct chunks; reflexivity.
  - unfold run. cbn [with_append_system_prompt class_of system_prompt prompt_template
                       text_splitter].
    rewrite Hsp, Hpt. unfold bind, emit, lift. rewrite Hsplit. reflexivity.
Qed.

(** ** Failures and what they leave behind *)

Lemma run_after_all_windows (self : Extractor) (content : string)
    (attributes : attributes_t) (w : world) (sp pt : string)
    (chunks : list Document) (partials : list json) (w1 : world) :
  system_prompt (class_of self) = Some sp ->
  prompt_template (class_of self) = Some pt ->
  create_documents rt (text_splitter self) [content] = Ok chunks ->
  (1 < List.length chunks)%nat ->
  sequential rt self attributes JNull chunks
             (World (trace (after_split self content chunks w)) (Some []))
             partials w1 ->
  chunks_data w1 = Some partials /\
  run rt self content attributes w = merge_all_data rt self partials attributes w1.
Proof.
  intros Hsp Hpt Hsplit Hlen Hs.
  destruct (sequential_facts rt _ _ _ _ _ _ _ Hs) as [_ [Hacc _]].
  specialize (Hacc [] eq_refl). cbn [app] in Hacc.
  split; [exact Hacc|].
  rewrite (run_eq rt _ _ _ _ _ _ _ Hsp Hpt Hsplit). cbv zeta.
  replace (1 <? List.length chunks)%nat with true
    by (symmetry; apply Nat.ltb_lt; exact Hlen).
  pose proof (sequential_extract_chunks rt _ _ _ _ _ _ _ Hs []) as Hloop.
  rewrite app_nil_r in Hloop. rewrite Hloop. cbn [extract_chunks]. unfold ret.
  rewrite Hacc. reflexivity.
Qed.

(** X9. When every window of a multi-window run was extracted and the merge
    request fails, [run] raises that exception: the partial results are not
    returned in place of a merged result, they stay in [chunks_data]. *)
Theorem merge_failure_aborts_run :
  forall (self : Extractor) (content : string) (attributes : attributes_t)
         (w : world) (sp pt : string) (chunks : list Document)
         (partials : list json) (w1 : world) (e : exn) (w2 : world),
    system_prompt (class_of self) = Some sp ->
    prompt_template (class_of self) = Some pt ->
    create_documents rt (text_splitter self) [content] = Ok chunks ->
    (1 < List.length chunks)%nat ->
    sequential rt self attributes JNull chunks
               (World (trace (after_split self content chunks w)) (Some []))
               partials w1 ->
    merge_all_data rt self partials attributes w1 = (Raise e, w2) ->
    run rt self content attributes w = (Raise e, w2)
    /\ chunks_data w2 = Some partials
    /\ List.length partials = List.length chunks.
Proof.
  intros self content attributes w sp pt chunks partials w1 e w2
         Hsp Hpt Hsplit Hlen Hs Hmerge.
  destruct (run_after_all_windows _ _ _ _ _ _ _ _ _ Hsp Hpt Hsplit Hlen Hs)
    as [Hcd Hrun].
  destruct (merge_all_data_frame rt _ _ _ _ _ _ Hmerge) as [Hcd2 _].
  destruct (sequential_facts rt _ _ _ _ _ _ _ Hs) as [Hl _].
  split; [rewrite Hrun; exact Hmerge|]. split; [rewrite Hcd2; exact Hcd|exact Hl].
Qed.

(** X11. When a window of a multi-window run fails, [chunks_data] is left
    holding the partial results of exactly the windows extracted before it,
    in window order. *)
Theorem failed_run_keeps_completed_partials :
  forall (self : Extractor) (content : string) (attributes : attributes_t)
         (w : world) (sp pt : string) (done : list Document) (chunk : Document)
         (rest : list Document) (partials : list json) (w1 : world)
         (e : exn) (w2 : world),
    system_prompt (class_of self) = Some sp ->
    prompt_template (class_of self) = Some pt ->
    create_documents rt (text_splitter self) [content] =
      Ok (done ++ chunk :: rest)%list ->
    (1 < List.length (done ++ chunk :: rest))%nat ->
    sequential rt self attributes JNull done
               (World (trace (after_split self content (done ++ chunk :: rest) w))
                      (Some []))
               partials w1 ->
    extract rt self (str_document rt chunk) attributes (last partials JNull) w1 =
      (Raise e, w2) ->
    chunks_data (snd (run rt self content attributes w)) = Some partials
    /\ List.length partials = List.length done.
Proof.
  intros self content attributes w sp pt done chunk rest partials w1 e w2
         Hsp Hpt Hsplit Hlen Hs He.
  assert (Hrun : run rt self content attributes w = (Raise e, w2)).
  { rewrite (run_eq rt _ _ _ _ _ _ _ Hsp Hpt Hsplit). cbv zeta.
    replace (1 <? List.length (done ++ chunk :: rest))%nat with true
      by (symmetry; apply Nat.ltb_lt; exact Hlen).
    rewrite (sequential_extract_chunks rt _ _ _ _ _ _ _ Hs).
    cbn [extract_chunks]. unfold bind at 1. rewrite He. reflexivity. }
  destruct (sequential_facts rt _ _ _ _ _ _ _ Hs) as [Hl [Hacc _]].
  destruct (extract_frame rt _ _ _ _ _ _ _ He) as [Hcd _].
  rewrite Hrun. cbn [snd]. rewrite Hcd, (Hacc [] eq_refl). split; [reflexivity|exact Hl].
Qed.

(** X12. The request for the next window depends on the previous list only
    through its length and its tail: two previous lists of the same length
    that agree on their last max(1, ceil(L / 3)) records give the same
    messages, whatever their earlier records are. *)
Theorem continuation_ignores_earlier_records :
  forall (self : Extractor) (markdown : string) (attributes : attributes_t)
         (l1 l2 : list json),
    overlap_factor (class_of self) = 3 -> l1 <> [] ->
    List.length l1 = List.length l2 ->
    last_n (Nat.max 1 ((List.length l1 + 2) / 3)) l1 =
    last_n (Nat.max 1 ((List.length l1 + 2) / 3)) l2 ->
    extract_messages rt self markdown attributes (JArr l1) =
    extract_messages rt self markdown attributes (JArr l2).
Proof.
  intros self markdown attributes l1 l2 H3 Hl1 Hlen Htail.
  assert (Hl2 : l2 <> []) by (destruct l2; [destruct l1; [contradiction|discriminate]|discriminate]).
  unfold extract_messages.
  rewrite (human_msg_continuation self markdown attributes (JArr l1) l1
             (Nat.max 1 ((List.length l1 + 2) / 3)));
    [|destruct l1; [contradiction|reflexivity] | reflexivity
     | apply cutoff_three; assumption | lia].
  rewrite (human_msg_continuation self markdown attributes (JArr l2) l2
             (Nat.max 1 ((List.length l1 + 2) / 3)));
    [|destruct l2; [contradiction|reflexivity] | reflexivity
     | rewrite Hlen; apply cutoff_three; assumption | lia].
  rewrite Htail. reflexivity.
Qed.

(** ** Counting the requests *)

Lemma extract_ok_request (self : Extractor) (markdown : string)
    (attributes : attributes_t) (prev : json) (w : world) (p : json) (w' : world) :
  extract rt self markdown attributes prev w = (Ok p, w') ->
  exists m, trace w' = (trace w ++ [CallExtract markdown prev; Invoke m])%list.
Proof.
  rewrite extract_eq.
  destruct (extract_messages rt self markdown attributes prev) as [m|e];
    intro H; inversion H; subst; clear H.
  exists m. cbn [trace]. rewrite <- app_assoc. reflexivity.
Qed.

Lemma sequential_request_count (self : Extractor) (attributes : attributes_t)
    (prev : json) (chunks : list Document) (w : world) (partials : list json)
    (w1 : world) :
  sequential rt self attributes prev chunks w partials w1 ->
  List.length (invocations (trace w1)) =
  (List.length (invocations (trace w)) + List.length chunks)%nat.
Proof.
  induction 1 as [prev w | prev chunk chunks w partial w1 acc partials w2 He Hcd Hs IH].
  - simpl. lia.
  - destruct (extract_ok_request _ _ _ _ _ _ _ He) as [m Htr].
    rewrite IH. cbn [trace]. rewrite Htr, invocations_app, length_app. simpl. lia.
Qed.

Lemma invocations_after_split (self : Extractor) (content : string)
    (chunks : list Document) (w : world) :
  invocations (trace (after_split self content chunks w)) = invocations (trace w).
Proof.
  rewrite after_split_eq. cbn [trace].
  rewrite !invocations_app, invocations_prints. cbn. rewrite !app_nil_r. reflexivity.
Qed.

(** X10. A run that returns a result has sent exactly one request to the
    model when the document was one window, and one request per window plus
    one for the merge when it was several. *)
Theorem successful_run_request_count :
  forall (self : Extractor) (content : string) (attributes : attributes_t)
         (w : world) (sp pt : string) (chunks : list Document)
         (out : json) (w' : world),
    system_prompt (class_of self) = Some sp ->
    prompt_template (class_of self) = Some pt ->
    create_documents rt (text_splitter self) [content] = Ok chunks ->
    run rt self content attributes w = (Ok out, w') ->
    List.length (invocations (trace w')) =
    (List.length (invocations (trace w))
     + (if (1 <? List.length chunks)%nat then List.length chunks + 1 else 1))%nat.
Proof.
  intros self content attributes w sp pt chunks out w' Hsp Hpt Hsplit Hrun.
  destruct (1 <? List.length chunks)%nat eqn:Hmulti.
  - apply Nat.ltb_lt in Hmulti.
    destruct (run_multi_window_cases rt self content attributes w sp pt chunks
                Hsp Hpt Hsplit Hmulti)
      as [[partials [w1 [Hs [Hcd Hmerge]]]]
         | [done [c [rest [partials [w1 [e [w2 [_ [_ [_ Hfail]]]]]]]]]]];
      [|rewrite Hfail in Hrun; discriminate].
    rewrite Hrun in Hmerge. symmetry in Hmerge.
    pose proof (sequential_request_count _ _ _ _ _ _ _ Hs) as Hcount.
    cbn [trace] in Hcount. rewrite invocations_after_split in Hcount.
    rewrite merge_all_data_eq in Hmerge.
    destruct (merge_messages rt self partials attributes) as [m|e];
      inversion Hmerge; subst; clear Hmerge.
    cbn [trace]. rewrite !invocations_app, !length_app, Hcount. simpl. lia.
  - rewrite (run_eq rt _ _ _ _ _ _ _ Hsp Hpt Hsplit) in Hrun. cbv zeta in Hrun.
    rewrite Hmulti in Hrun.
    destruct chunks as [|chunk chunks']; [discriminate|].
    destruct (extract_ok_request _ _ _ _ _ _ _ Hrun) as [m Htr].
    rewrite Htr, invocations_app, length_app, invocations_after_split. simpl. lia.
Qed.

(** ** A model without memory *)

Lemma extract_history_independent (self : Extractor) (markdown : string)
    (attributes : attributes_t) (prev : json) (w1 w2 : world) :
  history_independent rt ->
  fst (extract rt self markdown attributes prev w1) =
  fst (extract rt self markdown attributes prev w2).
Proof.
  intro Hi. rewrite !extract_eq.
  destruct (extract_messages rt self markdown attributes prev) as [m|e];
    [|reflexivity].
  cbn [fst]. rewrite (Hi (invocations (trace w1)) (invocations (trace w2)) m).
  reflexivity.
Qed.

Lemma merge_history_independent (self : Extractor) (all_data : list json)
    (attributes : attributes_t) (w1 w2 : world) :
  history_independent rt ->
  fst (merge_all_data rt self all_data attributes w1) =
  fst (merge_all_data rt self all_data attributes w2).
Proof.
  intro Hi. rewrite !merge_all_data_eq.
  destruct (merge_messages rt self all_data attributes) as [m|e]; [|reflexivity].
  cbn [fst]. rewrite (Hi (invocations (trace w1)) (invocations (trace w2)) m).
  reflexivity.
Qed.

Lemma extract_chunks_history_independent (self : Extractor)
    (attributes : attributes_t) (chunks : list Document) :
  history_independent rt ->
  forall (prev : json) (w1 w2 : world),
    chunks_data w1 = chunks_data w2 ->
    fst (extract_chunks rt self attributes chunks prev w1) =
    fst (extract_chunks rt self attributes chunks prev w2)
    /\ chunks_data (snd (extract_chunks rt self attributes chunks prev w1)) =
       chunks_data (snd (extract_chunks rt self attributes chunks prev w2)).
Proof.
  intro Hi. induction chunks as [|chunk chunks IH]; intros prev w1 w2 Hcd.
  - split; [reflexivity|exact Hcd].
  - cbn [extract_chunks]. unfold bind at 1 3 5 7.
    pose proof (extract_history_independent self (str_document rt chunk) attributes
                  prev w1 w2 Hi) as Hfst.
    destruct (extract rt self (str_document rt chunk) attributes prev w1)
      as [r1 v1] eqn:He1.
    destruct (extract rt self (str_document rt chunk) attributes prev w2)
      as [r2 v2] eqn:He2.
    destruct (extract_frame rt _ _ _ _ _ _ _ He1) as [Hcd1 _].
    destruct (extract_frame rt _ _ _ _ _ _ _ He2) as [Hcd2 _].
    cbn [fst] in Hfst. subst r2.
    destruct r1 as [p|e]; [|cbn [fst snd]; split; [reflexivity|congruence]].
    unfold bind, append_chunks_data.
    assert (Hv : chunks_data v1 = chunks_data v2) by congruence.
    rewrite <- Hv. destruct (chunks_data v1) as [acc|] eqn:Hc1.
    + apply IH. reflexivity.
    + cbn [fst snd]. split; [reflexivity|congruence].
Qed.

(** X13. With a model whose answers depend on the request only, the outcome
    of [run] does not depend on the world it starts in: neither on earlier
    requests nor on what [chunks_data] holds.  Running again on the same
    input gives the same outcome. *)
Theorem run_is_reproducible_with_memoryless_model :
  forall (self : Extractor) (content : string) (attributes : attributes_t)
         (w1 w2 : world),
    history_independent rt ->
    fst (run rt self content attributes w1) = fst (run rt self content attributes w2).
Proof.
  intros self content attributes w1 w2 Hi.
  destruct (system_prompt (class_of self)) as [sp|] eqn:Hsp;
    [|unfold run; rewrite Hsp; reflexivity].
  destruct (prompt_template (class_of self)) as [pt|] eqn:Hpt;
    [|unfold run; rewrite Hsp, Hpt; reflexivity].
  destruct (create_documents rt (text_splitter self) [content]) as [chunks|e] eqn:Hsplit.
  - rewrite !(run_eq rt _ _ _ _ _ _ _ Hsp Hpt Hsplit). cbv zeta.
    destruct (1 <? List.length chunks)%nat.
    + destruct (extract_chunks_history_independent self attributes chunks Hi JNull
                  (World (trace (after_split self content chunks w1)) (Some []))
                  (World (trace (after_split self content chunks w2)) (Some []))
                  eq_refl) as [Hfst Hcd].
      destruct (extract_chunks rt self attributes chunks JNull
                  (World (trace (after_split self content chunks w1)) (Some [])))
        as [r1 v1].
      destruct (extract_chunks rt self attributes chunks JNull
                  (World (trace (after_split self content chunks w2)) (Some [])))
        as [r2 v2].
      cbn [fst snd] in Hfst, Hcd. subst r2. destruct r1 as [final|e]; [|reflexivity].
      rewrite <- Hcd. destruct (chunks_data v1) as [all_data|]; [|reflexivity].
      apply merge_history_independent. exact Hi.
    + destruct chunks as [|chunk chunks']; [reflexivity|].
      apply extract_history_independent. exact Hi.
  - unfold run. rewrite Hsp, Hpt. unfold bind, emit, lift. rewrite Hsplit. reflexivity.
Qed.

(** ** The base class *)

(** X14. On a document of one window the chunked extractor does what
    [Extractor.run] of the class it inherits from does on the text of that
    window as [str] renders it: the same request goes to the model and the
    same outcome comes back.  For the class as written the inherited class
    is [TabularExtractor]. *)
Theorem single_window_agrees_with_base_run :
  forall (self : Extractor) (content : string) (attributes : attributes_t)
         (w : world) (sp pt : string) (chunk : Document),
    system_prompt (class_of self) = Some sp ->
    prompt_template (class_of self) = Some pt ->
    create_documents rt (text_splitter self) [content] = Ok [chunk] ->
    fst (run rt self content attributes w) =
      fst (Extractor_run rt (inherited (class_of self)) (str_document rt chunk)
                         attributes w)
    /\ invocations (trace (snd (run rt self content attributes w))) =
       invocations (trace (snd (Extractor_run rt (inherited (class_of self))
                                              (str_document rt chunk) attributes w)))
    /\ inherited ChunksTabularExtractor = TabularExtractor.
Proof.
  intros self content attributes w sp pt chunk Hsp Hpt Hsplit.
  cut (fst (run rt self content attributes w) =
         fst (Extractor_run rt (inherited (class_of self)) (str_document rt chunk)
                            attributes w)
       /\ invocations (trace (snd (run rt self content attributes w))) =
          invocations (trace (snd (Extractor_run rt (inherited (class_of self))
                                                 (str_document rt chunk) attributes w)))).
  { intros [H1 H2]. split; [exact H1|]. split; [exact H2|reflexivity]. }
  rewrite (run_eq rt _ _ _ _ _ _ _ Hsp Hpt Hsplit). cbv zeta.
  cbn [List.length Nat.ltb Nat.leb].
  rewrite extract_eq, invocations_after_split.
  unfold extract_messages, extract_human_msg, Extractor_run.
  cbn [truthy negb inherited simple_system_prompt simple_prompt_template].
  rewrite Hsp, Hpt. cbn [format system_message].
  unfold bind, lift, invoke.
  destruct (str_format rt pt _) as [h|e]; cbn [fst snd trace].
  - destruct (ainvoke rt (invocations (trace w)) [SystemMessage sp; HumanMessage h]);
      cbn [fst snd trace]; (split; [reflexivity|]);
      rewrite !invocations_app, invocations_after_split; cbn;
      rewrite ?app_nil_r; reflexivity.
  - split; [reflexivity|].
    rewrite invocations_app, invocations_after_split. cbn. rewrite app_nil_r.
    reflexivity.
Qed.

(** ** The events of a run *)

Lemma extract_messages_shape (self : Extractor) (markdown : string)
    (attributes : attributes_t) (prev : json) (m : list message) :
  extract_messages rt self markdown attributes prev = Ok m ->
  request_of (class_of self) m.
Proof.
  unfold extract_messages.
  destruct (extract_human_msg rt self markdown attributes prev) as [h|e];
    [|discriminate].
  destruct (system_prompt (class_of self)) as [s|] eqn:Hs; [|discriminate].
  cbn [system_message]. intro H. inversion H; subst.
  exists s, h. split; [reflexivity|left; exact Hs].
Qed.

Lemma merge_messages_shape (self : Extractor) (all_data : list json)
    (attributes : attributes_t) (m : list message) :
  merge_messages rt self all_data attributes = Ok m ->
  request_of (class_of self) m.
Proof.
  unfold merge_messages.
  destruct (format rt (prompt_merge_template (class_of self)) _) as [h|e];
    [|discriminate].
  destruct (system_merge_prompt (class_of self)) as [s|] eqn:Hs; [|discriminate].
  cbn [system_message]. intro H. inversion H; subst.
  exists s, h. split; [reflexivity|right; exact Hs].
Qed.

(** What [extract] adds to the trace: nothing printed, no call of the
    splitter, and only requests of the class. *)
Lemma extract_events (self : Extractor) (markdown : string)
    (attributes : attributes_t) (prev : json) (w : world) (r : result json)
    (w' : world) :
  extract rt self markdown attributes prev w = (r, w') ->
  exists new,
    trace w' = (trace w ++ new)%list
    /\ filter is_output new = []
    /\ Forall (request_of (class_of self)) (invocations new).
Proof.
  rewrite extract_eq.
  destruct (extract_messages rt self markdown attributes prev) as [m|e] eqn:Hm;
    intro H; inversion H; subst; clear H; cbn [trace].
  - exists [CallExtract markdown prev; Invoke m]. rewrite <- app_assoc.
    split; [reflexivity|]. split; [reflexivity|].
    cbn. constructor; [|constructor]. exact (extract_messages_shape _ _ _ _ _ Hm).
  - exists [CallExtract markdown prev].
    split; [reflexivity|]. split; [reflexivity|]. constructor.
Qed.

Lemma merge_events (self : Extractor) (all_data : list json)
    (attributes : attributes_t) (w : world) (r : result json) (w' : world) :
  merge_all_data rt self all_data attributes w = (r, w') ->
  exists new,
    trace w' = (trace w ++ new)%list
    /\ filter is_output new = []
    /\ Forall (request_of (class_of self)) (invocations new).
Proof.
  rewrite merge_all_data_eq.
  destruct (merge_messages rt self all_data attributes) as [m|e] eqn:Hm;
    intro H; inversion H; subst; clear H; cbn [trace].
  - exists [CallMerge all_data; Invoke m]. rewrite <- app_assoc.
    split; [reflexivity|]. split; [reflexivity|].
    cbn. constructor; [|constructor]. exact (merge_messages_shape _ _ _ _ Hm).
  - exists [CallMerge all_data].
    split; [reflexivity|]. split; [reflexivity|]. constructor.
Qed.

Lemma extract_chunks_events (self : Extractor) (attributes : attributes_t)
    (chunks : list Document) :
  forall (prev : json) (w : world) (r : result json) (w' : world),
    extract_chunks rt self attributes chunks prev w = (r, w') ->
    exists new,
      trace w' = (trace w ++ new)%list
      /\ filter is_output new = []
      /\ Forall (request_of (class_of self)) (invocations new).
Proof.
  induction chunks as [|chunk chunks IH]; intros prev w r w' Hrun.
  - inversion Hrun; subst. exists []. rewrite app_nil_r.
    split; [reflexivity|]. split; [reflexivity|]. constructor.
  - cbn [extract_chunks] in Hrun. unfold bind at 1 in Hrun.
    destruct (extract rt self (str_document rt chunk) attributes prev w)
      as [[partial|e] w1] eqn:He;
      destruct (extract_events _ _ _ _ _ _ _ He) as [new1 [Htr1 [Hout1 Hreq1]]].
    + unfold bind at 1 in Hrun. unfold append_chunks_data at 1 in Hrun.
      destruct (chunks_data w1) as [acc|].
      * destruct (IH _ _ _ _ Hrun) as [new [Htr [Hout Hreq]]]. cbn [trace] in Htr.
        exists (new1 ++ new)%list.
        split; [rewrite Htr, Htr1, <- app_assoc; reflexivity|].
        split; [rewrite filter_app, Hout1, Hout; reflexivity|].
        rewrite invocations_app. apply Forall_app. split; assumption.
      * inversion Hrun; subst. exists new1. repeat split; assumption.
    + inversion Hrun; subst. exists new1. repeat split; assumption.
Qed.

(** After the split, a run adds only such events. *)
Lemma run_events_after_split (self : Extractor) (content : string)
    (attributes : attributes_t) (w : world) (sp pt : string)
    (chunks : list Document) :
  system_prompt (class_of self) = Some sp ->
  prompt_template (class_of self) = Some pt ->
  create_documents rt (text_splitter self) [content] = Ok chunks ->
  exists later,
    trace (snd (run rt self content attributes w)) =
      (trace (after_split self content chunks w) ++ later)%list
    /\ filter is_output later = []
    /\ Forall (request_of (class_of self)) (invocations later).
Proof.
  intros Hsp Hpt Hsplit.
  rewrite (run_eq rt _ _ _ _ _ _ _ Hsp Hpt Hsplit). cbv zeta.
  destruct (1 <? List.length chunks)%nat.
  - destruct (extract_chunks rt self attributes chunks JNull
                (World (trace (after_split self content chunks w)) (Some [])))
      as [[final|e] w1] eqn:Hloop;
      destruct (extract_chunks_events _ _ _ _ _ _ _ Hloop) as [new [Htr [Hout Hreq]]];
      cbn [trace] in Htr.
    + destruct (chunks_data w1) as [all_data|].
      * destruct (merge_all_data rt self all_data attributes w1) as [r w2] eqn:Hmerge.
        destruct (merge_events _ _ _ _ _ _ Hmerge) as [new2 [Htr2 [Hout2 Hreq2]]].
        cbn [snd]. exists (new ++ new2)%list.
        split; [rewrite Htr2, Htr, <- app_assoc; reflexivity|].
        split; [rewrite filter_app, Hout, Hout2; reflexivity|].
        rewrite invocations_app. apply Forall_app. split; assumption.
      * cbn [snd]. exists new. repeat split; assumption.
    + cbn [snd]. exists new. repeat split; assumption.
  - destruct chunks as [|chunk chunks'].
    + cbn [snd]. exists []. rewrite app_nil_r.
      split; [reflexivity|]. split; [reflexivity|]. constructor.
    + destruct (extract rt self (str_document rt chunk) attributes JNull
                        (after_split self content (chunk :: chunks') w))
        as [r w1] eqn:He.
      cbn [snd]. exact (extract_events _ _ _ _ _ _ _ He).
Qed.

Lemma token_count_lines_nth (self : Extractor) (chunks : list Document) :
  forall (start : Z) (i : nat) (chunk : Document),
    nth_error chunks i = Some chunk ->
    nth_error (token_count_lines self start chunks) i =
    Some (Print ("Chunk " ++ str_int (start + Z.of_nat i + 1) ++ " token count: "
                 ++ str_int (length_function (text_splitter self) (page_content chunk)))).
Proof.
  induction chunks as [|c cs IH]; intros start i chunk Hnth.
  - destruct i; discriminate.
  - destruct i as [|i].
    + inversion Hnth; subst. cbn [token_count_lines nth_error].
      replace (start + Z.of_nat 0 + 1) with (start + 1) by lia. reflexivity.
    + cbn [token_count_lines nth_error]. cbn [nth_error] in Hnth.
      rewrite (IH (start + 1) i chunk Hnth).
      replace (start + 1 + Z.of_nat i + 1) with (start + Z.of_nat (S i) + 1) by lia.
      reflexivity.
Qed.

Lemma token_count_lines_length (self : Extractor) (chunks : list Document) :
  forall start, List.length (token_count_lines self start chunks) = List.length chunks.
Proof.
  induction chunks as [|c cs IH]; intro start; [reflexivity|].
  cbn [token_count_lines List.length]. rewrite IH. reflexivity.
Qed.

(** X15. Once the splitter has answered, [run] prints one line per window,
    numbered from 1 and giving the token count of that window, before
    anything else: every later event of the run, whether it ends well or
    not, is neither a printed line nor a call of the splitter. *)
Theorem token_counts_are_printed_first :
  forall (self : Extractor) (content : string) (attributes : attributes_t)
         (w : world) (sp pt : string) (chunks : list Document),
    system_prompt (class_of self) = Some sp ->
    prompt_template (class_of self) = Some pt ->
    create_documents rt (text_splitter self) [content] = Ok chunks ->
    exists lines later,
      trace (snd (run rt self content attributes w)) =
        (trace w ++ CreateDocuments [content] :: lines ++ later)%list
      /\ List.length lines = List.length chunks
      /\ (forall i chunk,
            nth_error chunks i = Some chunk ->
            nth_error lines i =
            Some (Print ("Chunk " ++ str_int (Z.of_nat i + 1) ++ " token count: "
                         ++ str_int (length_function (text_splitter self)
                                                     (page_content chunk)))))
      /\ filter is_output later = [].
Proof.
  intros self content attributes w sp pt chunks Hsp Hpt Hsplit.
  destruct (run_events_after_split self content attributes w sp pt chunks
              Hsp Hpt Hsplit) as [later [Htr [Hout _]]].
  exists (token_count_lines self 0 chunks), later.
  split.
  - rewrite Htr, after_split_eq. cbn [trace]. rewrite <- !app_assoc. reflexivity.
  - split; [apply token_count_lines_length|]. split; [|exact Hout].
    intros i chunk Hnth. exact (token_count_lines_nth self chunks 0 i chunk Hnth).
Qed.

(** X16. Every request that a run sends to the model is made of exactly two
    messages, a system message followed by a human message, and the system
    message is the [system_prompt] or the [system_merge_prompt] of the
    class. *)
Theorem requests_are_system_then_human :
  forall (self : Extractor) (content : string) (attributes : attributes_t) (w : world),
  exists new,
    trace (snd (run rt self content attributes w)) = (trace w ++ new)%list
    /\ Forall (request_of (class_of self)) (invocations new).
Proof.
  intros self content attributes w.
  destruct (system_prompt (class_of self)) as [sp|] eqn:Hsp;
    [|unfold run; rewrite Hsp; exists []; rewrite app_nil_r; split;
      [reflexivity|constructor]].
  destruct (prompt_template (class_of self)) as [pt|] eqn:Hpt;
    [|unfold run; rewrite Hsp, Hpt; exists []; rewrite app_nil_r; split;
      [reflexivity|constructor]].
  destruct (create_documents rt (text_splitter self) [content]) as [chunks|e] eqn:Hsplit.
  - destruct (run_events_after_split self content attributes w sp pt chunks
                Hsp Hpt Hsplit) as [later [Htr [_ Hreq]]].
    exists (CreateDocuments [content] :: token_count_lines self 0 chunks ++ later)%list.
    split.
    + rewrite Htr, after_split_eq. cbn [trace]. rewrite <- !app_assoc. reflexivity.
    + change (invocations (CreateDocuments [content]
                             :: token_count_lines self 0 chunks ++ later))
        with (invocations (token_count_lines self 0 chunks ++ later)).
      rewrite invocations_app, invocations_prints. exact Hreq.
  - unfold run. rewrite Hsp, Hpt. unfold bind, emit, lift. rewrite Hsplit.
    cbn [snd trace]. exists [CreateDocuments [content]].
    split; [reflexivity|constructor].
Qed.

(** X18. [Extractor.run] of the base class raises [ValueError] when one of
    its two prompts is missing, and then nothing has happened.  In every
    case it sends at most one request, a system message followed by a human
    message, and exactly one when it returns a result. *)
Theorem base_run_requests :
  forall (self : SimpleExtractor) (content : string) (attributes : attributes_t)
         (w : world) (r : result json) (w' : world),
    Extractor_run rt self content attributes w = (r, w') ->
    chunks_data w' = chunks_data w
    /\ (simple_system_prompt self = None \/ simple_prompt_template self = None ->
        w' = w /\ exists msg, r = Raise (ValueError msg))
    /\ (trace w' = trace w
        \/ exists s h, simple_system_prompt self = Some s
                       /\ trace w' = (trace w ++ [Invoke [SystemMessage s;
                                                          HumanMessage h]])%list)
    /\ (forall out, r = Ok out -> trace w' <> trace w).
Proof.
  intros self content attributes w r w'. unfold Extractor_run.
  destruct (simple_system_prompt self) as [s|] eqn:Hs.
  - destruct (simple_prompt_template self) as [pt|] eqn:Hpt.
    + unfold bind, lift, invoke. cbn [format system_message].
      destruct (str_format rt pt _) as [h|e]; intro H.
      * assert (Hw : w' = World (trace w ++ [Invoke [SystemMessage s; HumanMessage h]])
                              (chunks_data w)).
        { destruct (ainvoke rt (invocations (trace w)) _); inversion H; reflexivity. }
        subst w'. cbn [trace chunks_data].
        split; [reflexivity|]. split; [intros [Hn|Hn]; discriminate|].
        split; [right; exists s, h; split; reflexivity|].
        intros out _ Heq.
        apply (f_equal (@List.length event)) in Heq.
        rewrite length_app in Heq. simpl in Heq. lia.
      * inversion H; subst.
        split; [reflexivity|]. split; [intros [Hn|Hn]; discriminate|].
        split; [left; reflexivity|]. intros out Hout. discriminate.
    + unfold raise. intro H. inversion H; subst.
      split; [reflexivity|]. split; [intros _; split; [reflexivity|eexists; reflexivity]|].
      split; [left; reflexivity|]. intros out Hout. discriminate.
  - unfold raise. intro H. inversion H; subst.
    split; [reflexivity|]. split; [intros _; split; [reflexivity|eexists; reflexivity]|].
    split; [left; reflexivity|]. intros out Hout. discriminate.
Qed.

End MoreProperties.

(** ** [crawl_products] *)

(** X17. [crawl_products] lets an exception escape only when the [except]
    clauses do not take it for an [Exception].  A value it returns is never
    one that Python takes as false: it is the value returned by the scraper
    or a dictionary with the single key "error".  It prints a line only
    when the constructor of the scraper failed. *)
Theorem crawl_products_outcome :
  forall (P : Type) (api : Scraper P) (url : string),
    match fst (crawl_products api url) with
    | Ok v =>
        truthy v = true
        /\ ((exists scrapper,
               Parsera api = Ok scrapper
               /\ Parsera_run api scrapper url crawl_elements = Ok v)
            \/ (exists message, v = error_dict message))
    | Raise e => is_Exception api e = false
    end
    /\ (snd (crawl_products api url) <> [] -> exists e, Parsera api = Raise e).
Proof.
  intros P api url. unfold crawl_products.
  destruct (Parsera api) as [scrapper|e].
  - destruct (Parsera_run api scrapper url crawl_elements) as [v|e] eqn:Hrun.
    + destruct (truthy v) eqn:Hv; cbn [negb fst snd].
      * split; [|intro H; contradiction].
        split; [exact Hv|]. left. exists scrapper. split; [reflexivity|exact Hrun].
      * split; [|intro H; contradiction].
        split; [reflexivity|]. right. eexists. reflexivity.
    + destruct (is_Exception api e) eqn:He; cbn [fst snd].
      * split; [|intro H; contradiction].
        split; [reflexivity|]. right. eexists. reflexivity.
      * split; [exact He|intro H; contradiction].
  - destruct (is_Exception api e) eqn:He; cbn [fst snd].
    + split; [|intro; exists e; reflexivity].
      split; [reflexivity|]. right. eexists. reflexivity.
    + split; [exact He|intro; exists e; reflexivity].
Qed.

(** * The further properties on concrete inputs *)

(** X1 on an object of four keys, of which the last two are passed on, and
    on a string of three characters, the first of two bytes, of which the
    last is passed on. *)
Lemma continuation_of_object_witness :
  overlap_factor (class_of Stub.extractor) = 3
  /\ [("name", JStr "zero element"); ("price", JStr "123");
      ("link", JNull); ("tags", JArr [])] <> []
  /\ extract_human_msg Stub.rt_ok Stub.extractor "page" Stub.attributes Cases.keyed =
     format Stub.rt_ok (append_prompt_template ChunksTabularExtractor)
            [("markdown", "page");
             ("elements", Stub.dumps (attributes_json Stub.attributes));
             ("previous_data", Stub.dumps (JArr [JStr "link"; JStr "tags"]))]
  /\ Cases.accented <> EmptyString
  /\ extract_human_msg Stub.rt_ok Stub.extractor "page" Stub.attributes
                       (JStr Cases.accented) =
     format Stub.rt_ok (append_prompt_template ChunksTabularExtractor)
            [("markdown", "page");
             ("elements", Stub.dumps (attributes_json Stub.attributes));
             ("previous_data", Stub.dumps (JArr [JStr "b"]))].
Proof.
  split; [reflexivity|]. split; [discriminate|].
  pose proof (continuation_of_object_is_tail_of_keys
                Stub.rt_ok Stub.extractor "page" Stub.attributes
                [("name", JStr "zero element"); ("price", JStr "123");
                 ("link", JNull); ("tags", JArr [])]
                eq_refl ltac:(discriminate)) as H.
  split; [exact (proj1 H)|]. split; [discriminate|].
  exact (proj2 (proj2 H) Cases.accented ltac:(discriminate)).
Defined.

(** X2 on the number 5. *)
Lemma scalar_previous_witness :
  truthy (JInt 5) = true
  /\ exists msg,
       extract Stub.rt_ok Stub.extractor "page" Stub.attributes (JInt 5) Stub.start =
       (Raise (TypeError msg),
        World (trace Stub.start ++ [CallExtract "page" (JInt 5)])
              (chunks_data Stub.start)).
Proof.
  split; [reflexivity|].
  exact (scalar_previous_raises_type_error
           Stub.rt_ok Stub.extractor "page" Stub.attributes (JInt 5) Stub.start
           I eq_refl).
Defined.

(** X3 on the empty object. *)
Lemma falsy_previous_witness :
  truthy (JObj []) = false
  /\ extract_messages Stub.rt_ok Stub.extractor "page" Stub.attributes (JObj []) =
     extract_messages Stub.rt_ok Stub.extractor "page" Stub.attributes JNull.
Proof.
  split; [reflexivity|].
  exact (proj1 (falsy_previous_is_fresh
                  Stub.rt_ok Stub.extractor "page" Stub.attributes (JObj []) Stub.start
                  eq_refl)).
Defined.

(** X4 with the divisor 2 on a list of four records. *)
Lemma positive_divisor_witness :
  0 < overlap_factor (class_of (with_overlap_factor 2 Stub.extractor))
  /\ [Stub.row1; Stub.row2; Stub.row3; Stub.row4] <> []
  /\ exists c : nat,
       (1 <= c <= 4)%nat
       /\ 2 * (Z.of_nat c - 1) < 4 <= 2 * Z.of_nat c
       /\ List.length (last_n c [Stub.row1; Stub.row2; Stub.row3; Stub.row4]) = c
       /\ extract_human_msg Stub.rt_ok (with_overlap_factor 2 Stub.extractor) "page"
                            Stub.attributes Stub.partial_a =
          format Stub.rt_ok (append_prompt_template ChunksTabularExtractor)
                 [("markdown", "page");
                  ("elements", Stub.dumps (attributes_json Stub.attributes));
                  ("previous_data",
                   Stub.dumps (JArr (last_n c [Stub.row1; Stub.row2; Stub.row3;
                                               Stub.row4])))].
Proof.
  split; [reflexivity|]. split; [discriminate|].
  exact (continuation_for_positive_divisor
           Stub.rt_ok (with_overlap_factor 2 Stub.extractor) "page" Stub.attributes
           [Stub.row1; Stub.row2; Stub.row3; Stub.row4]
           eq_refl ltac:(discriminate)).
Defined.

(** X5 with the divisor -2 on a list of four records. *)
Lemma negative_divisor_witness :
  overlap_factor (class_of (with_overlap_factor (- 2) Stub.extractor)) < 0
  /\ [Stub.row1; Stub.row2; Stub.row3; Stub.row4] <> []
  /\ cutoff (with_overlap_factor (- 2) Stub.extractor)
            [Stub.row1; Stub.row2; Stub.row3; Stub.row4] = Ok 1
  /\ extract_human_msg Stub.rt_ok (with_overlap_factor (- 2) Stub.extractor) "page"
                       Stub.attributes Stub.partial_a =
     format Stub.rt_ok (append_prompt_template ChunksTabularExtractor)
            [("markdown", "page");
             ("elements", Stub.dumps (attributes_json Stub.attributes));
             ("previous_data", Stub.dumps (JArr [Stub.row4]))].
Proof.
  split; [reflexivity|]. split; [discriminate|].
  pose proof (continuation_for_negative_divisor
                Stub.rt_ok (with_overlap_factor (- 2) Stub.extractor) "page"
                Stub.attributes [Stub.row1; Stub.row2; Stub.row3; Stub.row4]
                eq_refl ltac:(discriminate)) as H.
  split; [exact (proj1 H)|exact (proj2 (proj2 H))].
Defined.

(** X6 with the divisor 0 and a previous list of one record. *)
Lemma zero_divisor_witness :
  overlap_factor (class_of (with_overlap_factor 0 Stub.extractor)) = 0
  /\ truthy (JArr [Stub.row1]) = true
  /\ as_list (JArr [Stub.row1]) = Ok [Stub.row1]
  /\ exists msg,
       extract Stub.rt_ok (with_overlap_factor 0 Stub.extractor) "page" Stub.attributes
               (JArr [Stub.row1]) Stub.start =
       (Raise (ZeroDivisionError msg),
        World (trace Stub.start ++ [CallExtract "page" (JArr [Stub.row1])])
              (chunks_data Stub.start)).
Proof.
  split; [reflexivity|]. split; [reflexivity|]. split; [reflexivity|].
  exact (proj1 (zero_divisor_raises
                  Stub.rt_ok (with_overlap_factor 0 Stub.extractor) "page"
                  Stub.attributes (JArr [Stub.row1]) [Stub.row1] Stub.start
                  100000 None eq_refl eq_refl eq_refl)).
Defined.

(** X7 on the class as written and the default chunk size. *)
Lemma overlap_within_chunk_size_witness :
  1 <= overlap_factor ChunksTabularExtractor
  /\ 0 < 100000
  /\ exists (self : Extractor) (w : world),
       init Stub.rt_ok ChunksTabularExtractor 100000 None = Ok (self, w)
       /\ class_of self = ChunksTabularExtractor
       /\ chunk_size (text_splitter self) = 100000
       /\ 0 <= chunk_overlap (text_splitter self) <= chunk_size (text_splitter self)
       /\ overlap_factor ChunksTabularExtractor * chunk_overlap (text_splitter self)
            <= 100000
            < overlap_factor ChunksTabularExtractor * chunk_overlap (text_splitter self)
              + overlap_factor ChunksTabularExtractor
       /\ (2 <= overlap_factor ChunksTabularExtractor ->
           chunk_overlap (text_splitter self) < chunk_size (text_splitter self)).
Proof.
  split; [cbn; lia|]. split; [lia|].
  exact (proj1 (overlap_within_chunk_size Stub.rt_ok ChunksTabularExtractor 100000 None
                  ltac:(cbn; lia)) ltac:(lia)).
Defined.

(** X9 on two windows, the model failing on the merge request. *)
Lemma merge_failure_witness :
  system_prompt (class_of Stub.extractor) = Some TABULAR_EXTRACTOR_SYSTEM_PROMPT
  /\ prompt_template (class_of Stub.extractor) = Some SIMPLE_EXTRACTOR_PROMPT_TEMPLATE
  /\ create_documents Cases.rt_merge_fails (text_splitter Stub.extractor)
                      ["first|second"] = Ok Cases.two
  /\ sequential Cases.rt_merge_fails Stub.extractor Stub.attributes JNull Cases.two
                Cases.w_split2 [Stub.partial_a; Stub.partial_b] Cases.w_acc2
  /\ fst (merge_all_data Cases.rt_merge_fails Stub.extractor
                         [Stub.partial_a; Stub.partial_b] Stub.attributes Cases.w_acc2) =
     Raise Stub.boom
  /\ fst (run Cases.rt_merge_fails Stub.extractor "first|second" Stub.attributes
              Stub.start) = Raise Stub.boom
  /\ chunks_data (snd (run Cases.rt_merge_fails Stub.extractor "first|second"
                           Stub.attributes Stub.start)) =
     Some [Stub.partial_a; Stub.partial_b].
Proof.
  assert (Hs : sequential Cases.rt_merge_fails Stub.extractor Stub.attributes JNull
                 Cases.two Cases.w_split2 [Stub.partial_a; Stub.partial_b]
                 Cases.w_acc2).
  { apply (sequential_next Cases.rt_merge_fails Stub.extractor Stub.attributes JNull
             (Stub.doc "first") [Stub.doc "second"] Cases.w_split2 Stub.partial_a
             Cases.w_first [] [Stub.partial_b] Cases.w_acc2).
    - vm_compute. reflexivity.
    - vm_compute. reflexivity.
    - apply (sequential_next Cases.rt_merge_fails Stub.extractor Stub.attributes
               Stub.partial_a (Stub.doc "second") [] Cases.w_acc1 Stub.partial_b
               Cases.w_second [Stub.partial_a] [] Cases.w_acc2).
      + vm_compute. reflexivity.
      + vm_compute. reflexivity.
      + apply sequential_done. }
  pose proof (merge_failure_aborts_run
                Cases.rt_merge_fails Stub.extractor "first|second" Stub.attributes
                Stub.start _ _ Cases.two [Stub.partial_a; Stub.partial_b] Cases.w_acc2
                Stub.boom
                (snd (merge_all_data Cases.rt_merge_fails Stub.extractor
                        [Stub.partial_a; Stub.partial_b] Stub.attributes Cases.w_acc2))
                eq_refl eq_refl eq_refl ltac:(simpl; lia) Hs
                ltac:(vm_compute; reflexivity)) as [Hrun [Hcd _]].
  split; [reflexivity|]. split; [reflexivity|]. split; [reflexivity|].
  split; [exact Hs|]. split; [vm_compute; reflexivity|].
  split; [rewrite Hrun; reflexivity|rewrite Hrun; exact Hcd].
Defined.

(** X10 on a two-window document: three requests. *)
Lemma request_count_witness :
  system_prompt (class_of Stub.extractor) = Some TABULAR_EXTRACTOR_SYSTEM_PROMPT
  /\ prompt_template (class_of Stub.extractor) = Some SIMPLE_EXTRACTOR_PROMPT_TEMPLATE
  /\ create_documents Stub.rt_ok (text_splitter Stub.extractor) ["first|second"] =
     Ok Cases.two
  /\ run Stub.rt_ok Stub.extractor "first|second" Stub.attributes Stub.start =
     (Ok Stub.merged_ab,
      snd (run Stub.rt_ok Stub.extractor "first|second" Stub.attributes Stub.start))
  /\ List.length (invocations (trace (snd (run Stub.rt_ok Stub.extractor "first|second"
                                               Stub.attributes Stub.start)))) =
     3%nat.
Proof.
  split; [reflexivity|]. split; [reflexivity|]. split; [reflexivity|].
  split; [vm_compute; reflexivity|].
  exact (successful_run_request_count
           Stub.rt_ok Stub.extractor "first|second" Stub.attributes Stub.start
           _ _ Cases.two Stub.merged_ab _ eq_refl eq_refl eq_refl
           ltac:(vm_compute; reflexivity)).
Defined.

(** X11 on three windows, the model failing on the second. *)
Lemma failed_run_partials_witness :
  create_documents Stub.rt_fail (text_splitter Stub.extractor) ["one|two|three"] =
    Ok ([Stub.doc "one"] ++ Stub.doc "two" :: [Stub.doc "three"])%list
  /\ sequential Stub.rt_fail Stub.extractor Stub.attributes JNull [Stub.doc "one"]
                Stub.w_split [Stub.partial_a] Stub.w_acc
  /\ extract Stub.rt_fail Stub.extractor (str_document Stub.rt_fail (Stub.doc "two"))
             Stub.attributes (last [Stub.partial_a] JNull) Stub.w_acc =
     (Raise Stub.boom, Stub.w_two)
  /\ chunks_data (snd (run Stub.rt_fail Stub.extractor "one|two|three" Stub.attributes
                           Stub.start)) = Some [Stub.partial_a].
Proof.
  assert (Hs : sequential Stub.rt_fail Stub.extractor Stub.attributes JNull
                 [Stub.doc "one"] Stub.w_split [Stub.partial_a] Stub.w_acc).
  { apply (sequential_next Stub.rt_fail Stub.extractor Stub.attributes JNull
             (Stub.doc "one") [] Stub.w_split Stub.partial_a Stub.w_one [] [] Stub.w_acc).
    - vm_compute. reflexivity.
    - vm_compute. reflexivity.
    - apply sequential_done. }
  assert (He : extract Stub.rt_fail Stub.extractor
                 (str_document Stub.rt_fail (Stub.doc "two"))
                 Stub.attributes (last [Stub.partial_a] JNull) Stub.w_acc =
               (Raise Stub.boom, Stub.w_two)).
  { vm_compute. reflexivity. }
  split; [reflexivity|]. split; [exact Hs|]. split; [exact He|].
  exact (proj1 (failed_run_keeps_completed_partials
                  Stub.rt_fail Stub.extractor "one|two|three" Stub.attributes Stub.start
                  _ _ [Stub.doc "one"] (Stub.doc "two") [Stub.doc "three"]
                  [Stub.partial_a] Stub.w_acc Stub.boom Stub.w_two
                  eq_refl eq_refl eq_refl ltac:(simpl; lia) Hs He)).
Defined.

(** X12 on two lists of four records that differ in their first record. *)
Lemma continuation_ignores_earlier_witness :
  overlap_factor (class_of Stub.extractor) = 3
  /\ [Stub.row1; Stub.row2; Stub.row3; Stub.row4] <> []
  /\ last_n 2 [Stub.row1; Stub.row2; Stub.row3; Stub.row4] =
     last_n 2 [Stub.row5; Stub.row2; Stub.row3; Stub.row4]
  /\ extract_messages Stub.rt_ok Stub.extractor "page" Stub.attributes
                      (JArr [Stub.row1; Stub.row2; Stub.row3; Stub.row4]) =
     extract_messages Stub.rt_ok Stub.extractor "page" Stub.attributes
                      (JArr [Stub.row5; Stub.row2; Stub.row3; Stub.row4]).
Proof.
  split; [reflexivity|]. split; [discriminate|]. split; [reflexivity|].
  exact (continuation_ignores_earlier_records
           Stub.rt_ok Stub.extractor "page" Stub.attributes
           [Stub.row1; Stub.row2; Stub.row3; Stub.row4]
           [Stub.row5; Stub.row2; Stub.row3; Stub.row4]
           eq_refl ltac:(discriminate) eq_refl eq_refl).
Defined.

(** X13 on a model with one answer: a second run returns what the first did. *)
Lemma reproducible_run_witness :
  history_independent Cases.rt_constant
  /\ fst (run Cases.rt_constant Stub.extractor "first|second" Stub.attributes Stub.start) =
     fst (run Cases.rt_constant Stub.extractor "first|second" Stub.attributes
              (snd (run Cases.rt_constant Stub.extractor "first|second" Stub.attributes
                        Stub.start))).
Proof.
  assert (Hi : history_independent Cases.rt_constant)
    by (intros h1 h2 m; reflexivity).
  split; [exact Hi|].
  exact (run_is_reproducible_with_memoryless_model
           Cases.rt_constant Stub.extractor "first|second" Stub.attributes Stub.start
           (snd (run Cases.rt_constant Stub.extractor "first|second" Stub.attributes
                     Stub.start)) Hi).
Defined.

(** X14 on a one-window document. *)
Lemma base_run_witness :
  system_prompt (class_of Stub.extractor) = Some TABULAR_EXTRACTOR_SYSTEM_PROMPT
  /\ prompt_template (class_of Stub.extractor) = Some SIMPLE_EXTRACTOR_PROMPT_TEMPLATE
  /\ create_documents Stub.rt_empty (text_splitter Stub.extractor) ["page"] =
     Ok [Stub.doc "page"]
  /\ fst (run Stub.rt_empty Stub.extractor "page" Stub.attributes Stub.start) =
     fst (Extractor_run Stub.rt_empty (inherited (class_of Stub.extractor))
                        (str_document Stub.rt_empty (Stub.doc "page"))
                        Stub.attributes Stub.start).
Proof.
  split; [reflexivity|]. split; [reflexivity|]. split; [reflexivity|].
  exact (proj1 (single_window_agrees_with_base_run
                  Stub.rt_empty Stub.extractor "page" Stub.attributes Stub.start
                  _ _ (Stub.doc "page") eq_refl eq_refl eq_refl)).
Defined.

(** X15 on a two-window document. *)
Lemma token_counts_witness :
  system_prompt (class_of Stub.extractor) = Some TABULAR_EXTRACTOR_SYSTEM_PROMPT
  /\ prompt_template (class_of Stub.extractor) = Some SIMPLE_EXTRACTOR_PROMPT_TEMPLATE
  /\ create_documents Stub.rt_ok (text_splitter Stub.extractor) ["first|second"] =
     Ok Cases.two
  /\ exists lines later,
       trace (snd (run Stub.rt_ok Stub.extractor "first|second" Stub.attributes
                       Stub.start)) =
         (trace Stub.start ++ CreateDocuments ["first|second"] :: lines ++ later)%list
       /\ List.length lines = 2%nat
       /\ nth_error lines 1 =
          Some (Print ("Chunk " ++ str_int 2 ++ " token count: " ++ str_int 6))
       /\ filter is_output later = [].
Proof.
  split; [reflexivity|]. split; [reflexivity|]. split; [reflexivity|].
  destruct (token_counts_are_printed_first
              Stub.rt_ok Stub.extractor "first|second" Stub.attributes Stub.start
              _ _ Cases.two eq_refl eq_refl eq_refl)
    as [lines [later [Htr [Hlen [Hnth Hout]]]]].
  exists lines, later. split; [exact Htr|]. split; [exact Hlen|].
  split; [exact (Hnth 1%nat (Stub.doc "second") eq_refl)|exact Hout].
Defined.

(** X17 on a scraper that cannot be constructed: a line is printed and an
    error dictionary returned. *)
Lemma crawl_products_witness :
  snd (crawl_products Cases.broken_scraper "https://example.com/") <> []
  /\ exists e, Parsera Cases.broken_scraper = Raise e.
Proof.
  split; [discriminate|].
  exact (proj2 (crawl_products_outcome unit Cases.broken_scraper "https://example.com/")
               ltac:(discriminate)).
Defined.

(** X18 on the base class, whose system prompt is missing. *)
Lemma base_run_requests_witness :
  Extractor_run Stub.rt_ok Extractor_base "page" Stub.attributes Stub.start =
    (Raise (ValueError "system_prompt is not defined for this extractor"), Stub.start)
  /\ (simple_system_prompt Extractor_base = None
      \/ simple_prompt_template Extractor_base = None)
  /\ Stub.start = Stub.start
  /\ exists msg,
       Raise (ValueError "system_prompt is not defined for this extractor") =
       Raise (A := json) (ValueError msg).
Proof.
  split; [reflexivity|]. split; [left; reflexivity|].
  exact (proj1 (proj2 (base_run_requests
                         Stub.rt_ok Extractor_base "page" Stub.attributes Stub.start
                         _ _ eq_refl))
               (or_introl eq_refl)).
Defined.
